(** * netguardai-faiss: the document indexing and query routing engine

    A shallow embedding of [faiss_service.py]: the tree flattener
    ([build_vendor_docs] / [collect_features]), the index store
    ([build_faiss_indexes]), the vendor resolver ([detect_vendors]), the
    rule chain of [query_faiss], the feature lister
    ([generate_feature_list]) and the scenario synthesizer
    ([handle_scenario]).

    Conventions of the model.
    - A Python [str] is a [string] of bytes; [lower], [strip] and
      [capitalize] act on the ASCII range, which is exact for ASCII text.
    - A decoded JSON value is a [json]; a Python [dict] is an association
      list in insertion order with pairwise distinct keys.
    - Code that can raise returns a [result]; the mutable
      [user_contexts] dictionary is threaded explicitly.
    - The embedding model, the FAISS similarity search and the
      chat-completion call are parameters of the development. *)

From stdpp Require Import gmap strings list pretty.
From Stdlib Require Import Ascii ZArith Lia.

Set Warnings "-register-all".

Local Open Scope bool_scope.

(** ** Python string primitives *)

Module PyStr.

Definition nl : string := String "010"%char "".

Definition code (c : ascii) : N := N_of_ascii c.

Definition is_upper (c : ascii) : bool := (65 <=? code c)%N && (code c <=? 90)%N.
Definition is_lower (c : ascii) : bool := (97 <=? code c)%N && (code c <=? 122)%N.
Definition is_digit (c : ascii) : bool := (48 <=? code c)%N && (code c <=? 57)%N.

Definition lower_char (c : ascii) : ascii :=
  if is_upper c then ascii_of_N (code c + 32) else c.
Definition upper_char (c : ascii) : ascii :=
  if is_lower c then ascii_of_N (code c - 32) else c.

(** [s.lower()] *)
Fixpoint lower (s : string) : string :=
  match s with
  | "" => ""
  | String c r => String (lower_char c) (lower r)
  end.

(** [s.capitalize()]: first character upper-cased, the rest lower-cased. *)
Definition capitalize (s : string) : string :=
  match s with
  | "" => ""
  | String c r => String (upper_char c) (lower r)
  end.

(** The ASCII characters for which [str.isspace] holds. *)
Definition is_space (c : ascii) : bool :=
  ((9 <=? code c)%N && (code c <=? 13)%N)
  || ((28 <=? code c)%N && (code c <=? 32)%N).

Fixpoint lstrip (s : string) : string :=
  match s with
  | "" => ""
  | String c r => if is_space c then lstrip r else s
  end.

(** [s.strip()] *)
Definition strip (s : string) : string :=
  String.rev (lstrip (String.rev (lstrip s))).


(** [strip_prefix p s] is the rest of [s] after its prefix [p]. *)
Fixpoint strip_prefix (p s : string) : option string :=
  match p with
  | "" => Some s
  | String a p' =>
      match s with
      | "" => None
      | String b s' => if Ascii.eqb a b then strip_prefix p' s' else None
      end
  end.

Definition starts_with (p s : string) : bool :=
  match strip_prefix p s with Some _ => true | None => false end.

(** [needle in hay] on two strings: substring containment. *)
Fixpoint contains (needle hay : string) : bool :=
  starts_with needle hay
  || match hay with
     | "" => false
     | String _ h => contains needle h
     end.

(** [c in s] for a single character [c]. *)
Fixpoint has_char (c : ascii) (s : string) : bool :=
  match s with
  | "" => false
  | String x r => Ascii.eqb x c || has_char c r
  end.

(** [any(w in s for w in words)] *)
Definition any_in (words : list string) (s : string) : bool :=
  existsb (fun w => contains w s) words.

(** [sep.join(parts)] *)
Fixpoint join (sep : string) (parts : list string) : string :=
  match parts with
  | [] => ""
  | [p] => p
  | p :: rest => p +:+ sep +:+ join sep rest
  end.

(** [s.split(sep)] for a one-character separator. *)
Fixpoint split_go (sep : ascii) (cur : string) (s : string) : list string :=
  match s with
  | "" => [String.rev cur]
  | String c r =>
      if Ascii.eqb c sep then String.rev cur :: split_go sep "" r
      else split_go sep (String c cur) r
  end.
Definition split (sep : ascii) (s : string) : list string := split_go sep "" s.

(** [s.split(sep)[-1]]; [split] never returns the empty list. *)
Definition last_segment (sep : ascii) (s : string) : string :=
  List.last (split sep s) "".

(** [s.replace(old, new)] for a non-empty [old]: every non-overlapping
    occurrence, leftmost first.  The fuel bounds the number of scanning
    steps; [String.length s] steps always suffice. *)
Fixpoint replace_go (fuel : nat) (old new s : string) : string :=
  match fuel with
  | O => s
  | S fuel' =>
      match strip_prefix old s with
      | Some rest => new +:+ replace_go fuel' old new rest
      | None =>
          match s with
          | "" => ""
          | String c r => String c (replace_go fuel' old new r)
          end
      end
  end.

(** With an empty [old] Python inserts [new] before every character and
    at the end. *)
Fixpoint intersperse (new s : string) : string :=
  match s with
  | "" => new
  | String c r => new +:+ String c (intersperse new r)
  end.

Definition replace (old new s : string) : string :=
  match old with
  | "" => intersperse new s
  | _ => replace_go (String.length s) old new s
  end.

End PyStr.

(** ** Exceptions and decoded JSON values *)

(** The exceptions the service can raise.  [Unmodelled] is not a Python
    exception: it marks an input whose Python behaviour the model does not
    define (the [repr] of a nested value inside an f-string, a regular
    expression outside the modelled fragment). *)
Inductive exn : Type :=
| KeyError | TypeError | AttributeError | IndexError | ReError | Unmodelled.

Inductive result (A : Type) : Type :=
| Ok (a : A)
| Raise (e : exn).
Arguments Ok {A} a.
Arguments Raise {A} e.

Definition bind {A B : Type} (m : result A) (k : A -> result B) : result B :=
  match m with
  | Ok a => k a
  | Raise e => Raise e
  end.

Notation "'do' x <- m ; k" := (bind m (fun x => k))
  (at level 10, x name, m at level 100, k at level 200).

(** What [json.load] produces. *)
Inductive json : Type :=
| JNull
| JBool (b : bool)
| JNum (n : Z)
| JStr (s : string)
| JList (l : list json)
| JDict (d : list (string * json)).

Abbreviation pydict := (list (string * json)).

Module PyDict.

(** [d.get(k)] *)
Fixpoint get (k : string) (d : pydict) : option json :=
  match d with
  | [] => None
  | (k', v) :: rest => if String.eqb k k' then Some v else get k rest
  end.

(** [k in d] *)
Definition mem (k : string) (d : pydict) : bool :=
  match get k d with Some _ => true | None => false end.

(** [d[k]] *)
Definition item (k : string) (d : pydict) : result json :=
  match get k d with Some v => Ok v | None => Raise KeyError end.

(** [d[k] = v]: an existing key keeps its position. *)
Fixpoint set (k : string) (v : json) (d : pydict) : pydict :=
  match d with
  | [] => [(k, v)]
  | (k', v') :: rest =>
      if String.eqb k k' then (k, v) :: rest else (k', v') :: set k v rest
  end.

(** [{**base, **extra}] *)
Definition merge (base extra : pydict) : pydict :=
  fold_left (fun acc kv => set (fst kv) (snd kv) acc) extra base.

End PyDict.

(** [str(v)] as an f-string field renders it, for the scalar values. *)
Definition py_str (v : json) : result string :=
  match v with
  | JNull => Ok "None"
  | JBool true => Ok "True"
  | JBool false => Ok "False"
  | JNum n => Ok (pretty n)
  | JStr s => Ok s
  | JList _ | JDict _ => Raise Unmodelled
  end.

(** [for x in v]: a list yields its elements, a dict its keys, a string
    its characters; the other values are not iterable. *)
Definition py_iter (v : json) : result (list json) :=
  match v with
  | JList l => Ok l
  | JDict d => Ok (map (fun kv => JStr (fst kv)) d)
  | JStr s => Ok (map (fun c => JStr (String c "")) (String.list_ascii_of_string s))
  | JNull | JBool _ | JNum _ => Raise TypeError
  end.

(** [v.items()] *)
Definition py_items (v : json) : result pydict :=
  match v with
  | JDict d => Ok d
  | _ => Raise AttributeError
  end.

(** [for x in xs: body(x)] where every iteration appends to one output
    list and may raise. *)
Fixpoint for_each {A B : Type} (body : A -> result (list B)) (xs : list A)
  : result (list B) :=
  match xs with
  | [] => Ok []
  | x :: rest =>
      do here <- body x;
      do more <- for_each body rest;
      Ok (here ++ more)
  end.

(** ** The [re] calls of the scenario synthesizer *)

Module Re.
Import PyStr.

(** The lazy group of [\[(.*?)\]] right after an opening bracket: the
    shortest run of non-newline characters followed by a closing
    bracket, and the text after that bracket. *)
Fixpoint lazy_close (s : string) : option (string * string) :=
  match s with
  | "" => None
  | String c r =>
      if Ascii.eqb c "]" then Some ("", r)
      else if Ascii.eqb c "010" then None
      else match lazy_close r with
           | Some (key, rest) => Some (String c key, rest)
           | None => None
           end
  end.

Fixpoint findall_go (fuel : nat) (s : string) : list string :=
  match fuel with
  | O => []
  | S fuel' =>
      match s with
      | "" => []
      | String c r =>
          if Ascii.eqb c "[" then
            match lazy_close r with
            | Some (key, rest) => key :: findall_go fuel' rest
            | None => findall_go fuel' r
            end
          else findall_go fuel' r
      end
  end.

(** [re.findall(r"\[(.*?)\]", s)]: the groups of the non-overlapping
    matches, leftmost first. *)
Definition findall_brackets (s : string) : list string :=
  findall_go (String.length s) s.

(** The characters with a special meaning in a pattern. *)
Definition is_meta (c : ascii) : bool :=
  existsb (Ascii.eqb c)
    [ "."; "^"; "$"; "*"; "+"; "?"; "{"; "}"; "["; "]"; "\"; "|"; "("; ")" ]%char.

Definition is_alnum (c : ascii) : bool := is_upper c || is_lower c || is_digit c.

(** The literal text a pattern denotes, for the fragment made of
    ordinary characters and of a backslash followed by a character that
    is neither a letter nor a digit (which denotes that character). *)
Fixpoint literal_of (p : string) : result string :=
  match p with
  | "" => Ok ""
  | String c r =>
      if Ascii.eqb c "\" then
        match r with
        | "" => Raise ReError
        | String e r' =>
            if is_alnum e then Raise Unmodelled
            else do t <- literal_of r'; Ok (String e t)
        end
      else if is_meta c then Raise Unmodelled
      else do t <- literal_of r; Ok (String c t)
  end.

(** [re.search(p, text)] on that fragment: [group(0)] of the leftmost
    match, or [None]. *)
Definition search (p text : string) : result (option string) :=
  do lit <- literal_of p;
  Ok (if contains lit text then Some lit else None).

End Re.

(** [v[k]] with a string key. *)
Definition py_subscript (v : json) (k : string) : result json :=
  match v with
  | JDict d => PyDict.item k d
  | _ => Raise TypeError
  end.

(** ** Module-level data *)

Definition vendor_mapping : list (string * string) :=
  [ ("cisco", "Cisco");
    ("juniper", "Juniper");
    ("palo alto", "Palo Alto");
    ("fortinet", "Fortinet");
    ("f5", "F5") ].

(** [{v.lower() for v in vendor_mapping.values()}] *)
Definition vendor_names_lower : list string :=
  map (fun kv => PyStr.lower (snd kv)) vendor_mapping.

Definition in_list (s : string) (l : list string) : bool :=
  existsb (String.eqb s) l.

Inductive category : Type := Setup | Security.

(** One pass through the body of a [for cmd in ...] loop of
    [collect_features]: the dictionary appended to [all_commands] and the
    [Document] appended to the vendor's list of that category. *)
Record emission : Type := Emit {
  em_command : pydict;
  em_category : category;
  em_text : string
}.

(** A FAISS index, represented by the page contents of the documents it
    was built from. *)
Record faiss : Type := Faiss { page_contents : list string }.

(** ** TreeFlattener: [build_vendor_docs] *)

Section Flattener.
Import PyStr.

(** [cmd.get(k)] rendered in an f-string; a missing key gives [None]. *)
Definition field (cmd : pydict) (k : string) : result string :=
  match PyDict.get k cmd with
  | Some v => py_str v
  | None => Ok "None"
  end.

(** Body of the loop at lines 41-44. *)
Definition emit_setup (vendor device_path : string) (cmd : json)
  : result (list emission) :=
  match cmd with
  | JDict c =>
      let entry :=
        PyDict.merge [ ("vendor", JStr vendor); ("type", JStr "setup");
                       ("device", JStr device_path) ] c in
      do name <- field c "name";
      do description <- field c "description";
      do command <- field c "command";
      Ok [ Emit entry Setup
             ("Vendor: " +:+ vendor +:+ nl +:+
              "Device: " +:+ device_path +:+ nl +:+
              "Type: Setup" +:+ nl +:+
              "Name: " +:+ name +:+ nl +:+
              "Description: " +:+ description +:+ nl +:+
              "Command: " +:+ command +:+ nl) ]
  | _ => Raise TypeError
  end.

(** Body of the loop at lines 47-50; [cmd.get('recommendations', 'None')]
    has the string ['None'] as its default. *)
Definition emit_security (vendor device_path level : string) (cmd : json)
  : result (list emission) :=
  match cmd with
  | JDict c =>
      let entry :=
        PyDict.merge [ ("vendor", JStr vendor); ("type", JStr "security");
                       ("level", JStr level); ("device", JStr device_path) ] c in
      do name <- field c "name";
      do description <- field c "description";
      do command <- field c "command";
      do recommendations <- field c "recommendations";
      Ok [ Emit entry Security
             ("Vendor: " +:+ vendor +:+ nl +:+
              "Device: " +:+ device_path +:+ nl +:+
              "Security Level: " +:+ level +:+ nl +:+
              "Name: " +:+ name +:+ nl +:+
              "Description: " +:+ description +:+ nl +:+
              "Command: " +:+ command +:+ nl +:+
              "Recommendations: " +:+ recommendations +:+ nl) ]
  | _ => Raise TypeError
  end.

(** Lines 40-44: the ["setup"] key of a node. *)
Definition collect_setup (vendor device_path : string) (subtree : pydict)
  : result (list emission) :=
  match PyDict.get "setup" subtree with
  | Some v =>
      do cmds <- py_iter v;
      for_each (emit_setup vendor device_path) cmds
  | None => Ok []
  end.

(** Lines 45-50: the ["security"] key of a node. *)
Definition collect_security (vendor device_path : string) (subtree : pydict)
  : result (list emission) :=
  match PyDict.get "security" subtree with
  | Some v =>
      do levels <- py_items v;
      for_each (fun lc =>
                  do cmds <- py_iter (snd lc);
                  for_each (emit_security vendor device_path (fst lc)) cmds)
               levels
  | None => Ok []
  end.

(** Line 52: the guard of the recursive call. *)
Definition is_vendor_name (key : string) : bool :=
  in_list (lower key) vendor_names_lower.

(** Lines 38-53.  The appends to [all_commands], [setup_docs[vendor]] and
    [security_docs[vendor]] are returned as one list of emissions, in the
    order the code performs them. *)
Fixpoint collect_features (vendor : string) (subtree : json)
    (device_path : string) {struct subtree} : result (list emission) :=
  match subtree with
  | JDict d =>
      do from_setup <- collect_setup vendor device_path d;
      do from_security <- collect_security vendor device_path d;
      do from_children <-
        for_each (fun '(key, val) =>
                    if is_vendor_name key then Ok []
                    else collect_features vendor val
                           (device_path +:+ "/" +:+ key))
                 d;
      Ok (from_setup ++ from_security ++ from_children)
  | _ => Ok []
  end.

Definition texts_of (c : category) (ems : list emission) : list string :=
  map em_text
    (List.filter (fun e => match em_category e, c with
                           | Setup, Setup | Security, Security => true
                           | _, _ => false
                           end) ems).

Record vendor_docs : Type := VendorDocs {
  setup_docs : gmap string (list string);
  security_docs : gmap string (list string);
  commands : list pydict
}.

(** Lines 55-57 *)
Fixpoint build_docs_loop (vendors : pydict) (acc : vendor_docs)
  : result vendor_docs :=
  match vendors with
  | [] => Ok acc
  | (vendor, devices) :: rest =>
      do ems <- collect_features vendor devices vendor;
      build_docs_loop rest
        {| setup_docs := <[vendor := texts_of Setup ems]> (setup_docs acc);
           security_docs := <[vendor := texts_of Security ems]> (security_docs acc);
           commands := commands acc ++ map em_command ems |}
  end.

(** Lines 35-59; the third component is what the walk appended to the
    global [all_commands]. *)
Definition build_vendor_docs (dataset : json) : result vendor_docs :=
  do vs <- py_subscript dataset "vendors";
  do vendors <- py_items vs;
  build_docs_loop vendors (VendorDocs ∅ ∅ []).

(** The walk as the specification words it: after the ["setup"] and
    ["security"] keys of a node are handled, recurse into every _other_
    child key whose name is not a vendor display name.  It is compared
    with [collect_features] below. *)
Fixpoint collect_features_spec (vendor : string) (subtree : json)
    (device_path : string) {struct subtree} : result (list emission) :=
  match subtree with
  | JDict d =>
      do from_setup <- collect_setup vendor device_path d;
      do from_security <- collect_security vendor device_path d;
      do from_children <-
        for_each (fun '(key, val) =>
                    if String.eqb key "setup" || String.eqb key "security"
                       || is_vendor_name key
                    then Ok []
                    else collect_features_spec vendor val
                           (device_path +:+ "/" +:+ key))
                 d;
      Ok (from_setup ++ from_security ++ from_children)
  | _ => Ok []
  end.

(** Trees on which the two walks coincide: dictionaries have distinct
    keys (as [json.load] builds them) and no "security" map has a level
    named "setup" or "security". *)
Fixpoint plain_levels (subtree : json) : Prop :=
  match subtree with
  | JDict d =>
      NoDup (map fst d)
      /\ match PyDict.get "security" d with
         | Some (JDict levels) =>
             PyDict.get "setup" levels = None
             /\ PyDict.get "security" levels = None
         | _ => True
         end
      /\ (fix children (items : pydict) : Prop :=
            match items with
            | [] => True
            | (_, val) :: rest => plain_levels val /\ children rest
            end) d
  | _ => True
  end.

(** The first two lines of a Document of [vendor] found at [device_path]. *)
Definition tag (vendor device_path rest : string) : string :=
  "Vendor: " +:+ vendor +:+ nl +:+ "Device: " +:+ device_path +:+ rest.

(** The Documents of each vendor are tagged with that vendor. *)
Definition docs_tagged (docs : gmap string (list string)) : Prop :=
  forall vendor texts text,
    docs !! vendor = Some texts -> In text texts ->
    exists rest, text = tag vendor vendor rest.

End Flattener.

(** ** IndexStore: [build_faiss_indexes] *)

Record env : Type := Env {
  all_commands : list pydict;
  vendor_setup_stores : gmap string (option faiss);
  vendor_security_stores : gmap string (option faiss)
}.

(** [FAISS.from_documents(docs, embeddings) if docs else None] *)
Definition index_of (docs : list string) : option faiss :=
  match docs with
  | [] => None
  | _ => Some (Faiss docs)
  end.

(** Lines 61-66 *)
Definition build_faiss_indexes (dataset : json) : result env :=
  do docs <- build_vendor_docs dataset;
  Ok {| all_commands := commands docs;
        vendor_setup_stores := index_of <$> setup_docs docs;
        vendor_security_stores := index_of <$> security_docs docs |}.

(** ** The request handlers *)

(** The JSON body of a request to [/query]; both keys are optional. *)
Record request : Type := Request {
  query : option string;
  user_id : option string
}.

Definition scope_reminder : string :=
  "⚠️ Sorry, I can only assist you with network setup and security topics related to setting up or securing any of the devices across the 5 platforms".
Definition greeting : string :=
  "Hello! How can I assist you with network setup or security today?".
Definition nothing_found : string :=
  "Sorry, I couldn't find anything useful for that request.".
Definition scenario_guidance : string :=
  "I understood that you're trying to configure something, but I need a bit more detail. Try using keywords like SSH, VLAN, hostname, or IP.".
Definition scenario_header : string :=
  "Here are the configuration commands based on your scenario:" +:+ PyStr.nl +:+ PyStr.nl.
Definition feature_trailer : string :=
  PyStr.nl +:+ "Would you like to configure another feature? All commands can be exported if needed.".

Definition irrelevant_keywords : list string :=
  [ "joke"; "weather"; "powerpoint"; "excel"; "word"; "story"; "open"; "time"; "date";
    "calendar"; "meme"; "music"; "restaurant"; "movie"; "tell me"; "funny"; "game" ].
Definition greetings : list string := [ "hello"; "hi"; "hey" ].
Definition config_verbs : list string := [ "set"; "enable"; "disable"; "configure" ].

Section Service.
Import PyStr.

(** [final_dataset.json], loaded at import. *)
Variable dataset : json.
(** [store.similarity_search(query, k)] on the index built from a corpus:
    the page contents of the documents found. *)
Variable similarity_search : faiss -> string -> nat -> list string.
(** [get_preview]: the chat-completion call, or its inline error string. *)
Variable get_preview : string -> string.
(** [re.search(pattern, text)]: [group(0)] of the match, [None] when the
    pattern matches nowhere, or [re.error]. *)
Variable re_search : string -> string -> result (option string).

(** *** VendorResolver: lines 114-121 *)

(** Line 115: [[vendor_mapping[k] for k in vendor_mapping if k in user_query]] *)
Definition aliases_in (user_query : string) : list string :=
  map snd (List.filter (fun kv => contains (fst kv) user_query) vendor_mapping).

Definition detect_vendors (user_query user_id : string)
    (user_contexts : gmap string string)
  : result (list string) * gmap string string :=
  let mentioned := aliases_in user_query in
  let mentioned :=
    match mentioned, user_contexts !! user_id with
    | [], Some remembered => [remembered]
    | _, _ => mentioned
    end in
  let mentioned :=
    match mentioned with
    | [] => map snd vendor_mapping
    | _ => mentioned
    end in
  match mentioned with
  | [] => (Raise IndexError, user_contexts)
  | first :: _ => (Ok mentioned, <[user_id := first]> user_contexts)
  end.

(** *** FeatureLister: lines 123-145 *)

(** Line 134: [level_filter and level.lower() != level_filter] *)
Definition skip_level (level_filter : option string) (level : string) : bool :=
  match level_filter with
  | Some f => negb (String.eqb f "") && negb (String.eqb (lower level) f)
  | None => false
  end.

(** Line 138 *)
Definition feature_line (command : json) : result (list string) :=
  do n <- py_subscript command "name";
  do name <- py_str n;
  do d <- py_subscript command "description";
  do description <- py_str d;
  Ok [ "- " +:+ name +:+ ": " +:+ description +:+ nl ].

(** Lines 134-138: one [(level, commands)] group of a node. *)
Definition feature_group (level_filter : option string) (device_path : string)
    (group : string * json) : result (list string) :=
  let '(level, cmds) := group in
  if skip_level level_filter level then Ok []
  else
    let label := last_segment "/" device_path in
    let header :=
      nl +:+ "🔐 " +:+ label +:+ " " +:+
      (if String.eqb level "" then "" else "- " +:+ capitalize level +:+ " Level")
      +:+ ":" +:+ nl in
    do cs <- py_iter cmds;
    do lines <- for_each feature_line cs;
    Ok (header :: lines).

(** Lines 129-142; [vendor_keys] is
    [[v.lower() for v in dataset["vendors"].keys()]].  The pieces added to
    [response_text] are returned in order. *)
Fixpoint extract_features (vendor_keys : list string) (feature_type : string)
    (level_filter : option string) (subtree : json) (device_path : string)
    {struct subtree} : result (list string) :=
  match subtree with
  | JDict d =>
      match PyDict.get feature_type d with
      | Some v =>
          do groups <-
            (if String.eqb feature_type "security" then py_items v
             else Ok [("", v)]);
          for_each (feature_group level_filter device_path) groups
      | None =>
          for_each (fun '(k, v) =>
                      if in_list (lower k) vendor_keys then Ok []
                      else extract_features vendor_keys feature_type level_filter
                             v (device_path +:+ "/" +:+ k))
                   d
      end
  | _ => Ok []
  end.

(** [dataset["vendors"]] as a dictionary.  A dataset where it is anything
    else never gets here: [build_vendor_docs] raises at import. *)
Definition dataset_vendors : result pydict :=
  do vs <- py_subscript dataset "vendors";
  match vs with
  | JDict d => Ok d
  | _ => Raise Unmodelled
  end.

Definition generate_feature_list (vendors_found : list string)
    (feature_type : string) (level_filter : option string) : result string :=
  do pieces <-
    for_each (fun vendor =>
                do vendors <- dataset_vendors;
                match PyDict.get vendor vendors with
                | None => Ok []
                | Some subtree =>
                    let title :=
                      nl +:+ "✨ " +:+ capitalize feature_type +:+
                      " Features for " +:+ vendor +:+ ":" +:+ nl in
                    do body <-
                      extract_features (map (fun kv => lower (fst kv)) vendors)
                        feature_type level_filter subtree vendor;
                    Ok (title :: body)
                end)
             vendors_found;
  Ok (fold_right String.append "" pieces +:+ feature_trailer).

(** *** ScenarioSynthesizer: lines 147-159 *)

(** Line 151: [any(term.lower() in query for term in terms)], which
    stops at the first term found. *)
Fixpoint any_term_in (query : string) (terms : list json) : result bool :=
  match terms with
  | [] => Ok false
  | JStr term :: rest =>
      if contains (lower term) query then Ok true else any_term_in query rest
  | _ :: _ => Raise AttributeError
  end.

Definition token (key : string) : string := "[" +:+ key +:+ "]".

(** Lines 154-155: one placeholder key. *)
Definition fill_one (query key filled : string) : result string :=
  do guess <- re_search (replace "_" " " key) query;
  Ok (replace (token key)
        (match guess with Some span => span | None => token key end)
        filled).

(** Lines 153-155: the loop over the keys found in the template. *)
Fixpoint fill_keys (query : string) (keys : list string) (filled : string)
  : result string :=
  match keys with
  | [] => Ok filled
  | key :: rest =>
      do filled' <- fill_one query key filled;
      fill_keys query rest filled'
  end.

(** Lines 152-155 *)
Definition fill_template (query template : string) : result string :=
  fill_keys query (Re.findall_brackets template) template.

(** Lines 150-156: one command of the registry; what it appends to
    [matched]. *)
Definition scenario_entry (query : string) (cmd : pydict)
  : result (list string) :=
  do name <- PyDict.item "name" cmd;
  let description :=
    match PyDict.get "description" cmd with
    | Some d => d
    | None => JStr ""
    end in
  do hit <- any_term_in query [name; description];
  if hit then
    do template <- PyDict.item "command" cmd;
    match template with
    | JStr t =>
        do filled <- fill_template query t;
        do shown <- py_str name;
        Ok [ shown +:+ nl +:+ filled ]
    | _ => Raise TypeError
    end
  else Ok [].

Definition handle_scenario (cmds : list pydict) (query : string)
  : result string :=
  do matched <- for_each (scenario_entry query) cmds;
  match matched with
  | [] => Ok scenario_guidance
  | _ => Ok (scenario_header +:+ join (nl +:+ nl) matched)
  end.

(** *** QueryClassifier: lines 70-112 *)

(** [stores.get(vendor)]: [None] for a vendor without an entry, as for a
    vendor whose entry is [None]. *)
Definition store_get (stores : gmap string (option faiss)) (vendor : string)
  : option faiss :=
  match stores !! vendor with
  | Some store => store
  | None => None
  end.

(** Lines 106-109: what one vendor adds to [all_results]. *)
Definition search_vendor (e : env) (is_setup : bool) (user_query vendor : string)
  : list string :=
  let store :=
    store_get (if is_setup then vendor_setup_stores e else vendor_security_stores e)
      vendor in
  match store with
  | Some index => similarity_search index user_query 5
  | None => []
  end.

(** Lines 110-112 *)
Definition retrieval_response (all_results : list string) : list string :=
  match all_results with
  | [] => [nothing_found]
  | _ => all_results
  end.

(** Lines 102-112: the default retrieval path. *)
Definition default_retrieval (e : env) (user_query user_id : string)
    (user_contexts : gmap string string)
  : result (list string) * gmap string string :=
  match detect_vendors user_query user_id user_contexts with
  | (Ok mentioned_vendors, user_contexts') =>
      let is_setup := contains "setup" user_query || contains "configure" user_query in
      let all_results :=
        flat_map (search_vendor e is_setup user_query) mentioned_vendors in
      (Ok (retrieval_response all_results), user_contexts')
  | (Raise x, user_contexts') => (Raise x, user_contexts')
  end.

(** Line 96 *)
Definition level_filter_of (user_query : string) : option string :=
  if contains "advanced" user_query then Some "advanced"
  else if contains "basic" user_query then Some "basic"
  else None.

Definition single (r : result string) : result (list string) :=
  do s <- r; Ok [s].

(** Lines 94-112: the feature rule, which runs into the default
    retrieval when it returns nothing. *)
Definition features_or_default (e : env) (user_query user_id : string)
    (user_contexts : gmap string string)
  : result (list string) * gmap string string :=
  if contains "features" user_query then
    match detect_vendors user_query user_id user_contexts with
    | (Ok vendors_found, user_contexts') =>
        let level_filter := level_filter_of user_query in
        if contains "security" user_query then
          (single (generate_feature_list vendors_found "security" level_filter),
           user_contexts')
        else if contains "setup" user_query then
          (single (generate_feature_list vendors_found "setup" None),
           user_contexts')
        else default_retrieval e user_query user_id user_contexts'
    | (Raise x, user_contexts') => (Raise x, user_contexts')
    end
  else default_retrieval e user_query user_id user_contexts.

(** Line 74: [data.get("user_id", "default_user")] *)
Definition user_of (data : request) : string :=
  match user_id data with Some u => u | None => "default_user" end.

(** Line 73 *)
Definition normalize (data : request) : string :=
  strip (lower (match query data with Some q => q | None => "" end)).

(** Lines 71-112: the response's ["results"] list and the updated
    [user_contexts]. *)
Definition query_faiss (e : env) (data : request)
    (user_contexts : gmap string string)
  : result (list string) * gmap string string :=
  let user_query := normalize data in
  let user_id := user_of data in
  let preview_mode := contains "preview" user_query || contains "impact" user_query in
  if any_in irrelevant_keywords user_query then (Ok [scope_reminder], user_contexts)
  else if any_in greetings user_query then (Ok [greeting], user_contexts)
  else if preview_mode then (Ok [get_preview user_query], user_contexts)
  else if any_in config_verbs user_query then
    (single (handle_scenario (all_commands e) user_query), user_contexts)
  else features_or_default e user_query user_id user_contexts.

(** *** Vocabulary of the statements *)

(** A registry entry made from a command definition of the knowledge tree:
    a string name, a string command template, and a description that is a
    string or is missing. *)
Definition well_formed_command (cmd : pydict) : Prop :=
  (exists name, PyDict.get "name" cmd = Some (JStr name))
  /\ (exists template, PyDict.get "command" cmd = Some (JStr template))
  /\ (PyDict.get "description" cmd = None
      \/ exists d, PyDict.get "description" cmd = Some (JStr d)).

(** [re.search] raises on none of the placeholder patterns of a registry. *)
Definition patterns_compile (cmds : list pydict) (query : string) : Prop :=
  forall cmd template key,
    In cmd cmds ->
    PyDict.get "command" cmd = Some (JStr template) ->
    In key (Re.findall_brackets template) ->
    exists guess, re_search (replace "_" " " key) query = Ok guess.

(** Every remembered vendor is one of the display names of
    [vendor_mapping]. *)
Definition canonical_contexts (user_contexts : gmap string string) : Prop :=
  forall user vendor,
    user_contexts !! user = Some vendor -> In vendor (map snd vendor_mapping).

(** The external search returns at most [k] page contents. *)
Definition honours_k : Prop :=
  forall index q k, length (similarity_search index q k) <= k.

(** The external search returns page contents of the index it is run on. *)
Definition returns_indexed : Prop :=
  forall index q k text,
    In text (similarity_search index q k) -> In text (page_contents index).

(** The first four rules all fail on a normalized query. *)
Definition reaches_rule5 (user_query : string) : Prop :=
  any_in irrelevant_keywords user_query = false
  /\ any_in greetings user_query = false
  /\ contains "preview" user_query = false
  /\ contains "impact" user_query = false
  /\ any_in config_verbs user_query = false.

End Service.

(** * Sample data

    A small knowledge tree and concrete stand-ins for the external
    capabilities, used to evaluate the handlers on concrete requests. *)

Module Sample.

Definition ssh : json :=
  JDict [ ("name", JStr "Enable SSH");
          ("description", JStr "turn on secure shell");
          ("command", JStr "ssh enable on [interface]") ].

Definition hostname : json :=
  JDict [ ("name", JStr "Hostname");
          ("description", JStr "name the device");
          ("command", JStr "hostname [name]") ].

Definition dataset : json :=
  JDict [ ("vendors",
           JDict [ ("Cisco",
                    JDict [ ("Router",
                             JDict [ ("setup", JList [hostname]);
                                     ("security",
                                      JDict [ ("basic", JList [ssh]) ]) ]) ]);
                   ("Juniper", JDict []) ]) ].

(** A search that returns the first [k] documents of the corpus. *)
Definition similarity_search (index : faiss) (q : string) (k : nat) : list string :=
  firstn k (page_contents index).

Definition get_preview (q : string) : string := "Preview: " +:+ q.

Definition e : env :=
  match build_faiss_indexes dataset with
  | Ok e => e
  | Raise _ => Env [] ∅ ∅
  end.

Definition run (q : string) (user_contexts : gmap string string)
  : result (list string) * gmap string string :=
  query_faiss dataset similarity_search get_preview Re.search e
    (Request (Some q) None) user_contexts.

Definition ssh_document : string :=
  "Vendor: Cisco" +:+ PyStr.nl +:+
  "Device: Cisco/Router" +:+ PyStr.nl +:+
  "Security Level: basic" +:+ PyStr.nl +:+
  "Name: Enable SSH" +:+ PyStr.nl +:+
  "Description: turn on secure shell" +:+ PyStr.nl +:+
  "Command: ssh enable on [interface]" +:+ PyStr.nl +:+
  "Recommendations: None" +:+ PyStr.nl.

End Sample.

(** * Evaluation on concrete inputs *)

Example lower_ex : PyStr.lower "Show CISCO Setup" = "show cisco setup".
Proof. reflexivity. Qed.
Example strip_ex : PyStr.strip "  hello world  " = "hello world".
Proof. reflexivity. Qed.
Example contains_ex : PyStr.contains "set" "the setup" = true.
Proof. reflexivity. Qed.
Example replace_ex : PyStr.replace "[a]" "x" "p [a] q [a]" = "p x q x".
Proof. reflexivity. Qed.
Example last_segment_ex : PyStr.last_segment "/" "Cisco/Router/ISR" = "ISR".
Proof. reflexivity. Qed.
Example capitalize_ex : PyStr.capitalize "security" = "Security".
Proof. reflexivity. Qed.

Example findall_ex :
  Re.findall_brackets "ip address [ip_address] [mask] on [interface]"
  = ["ip_address"; "mask"; "interface"].
Proof. reflexivity. Qed.
Example findall_nested_ex : Re.findall_brackets "[[a] b] [c" = ["[a"].
Proof. reflexivity. Qed.
Example search_ex : Re.search "ip address" "set ip address now" = Ok (Some "ip address").
Proof. reflexivity. Qed.
Example search_escape_ex : Re.search "p\[q" "q" = Ok None.
Proof. reflexivity. Qed.

Example sample_indexes_built :
  build_faiss_indexes Sample.dataset = Ok Sample.e
  /\ vendor_security_stores Sample.e !! "Cisco"
     = Some (Some (Faiss [Sample.ssh_document]))
  /\ vendor_setup_stores Sample.e !! "Juniper" = Some None.
Proof. vm_compute. repeat split. Qed.

Example sample_scenario :
  fst (Sample.run "Please enable SSH on interface gigabit0" ∅)
  = Ok [ scenario_header +:+ "Enable SSH" +:+ PyStr.nl +:+ "ssh enable on interface" ].
Proof. vm_compute. reflexivity. Qed.

(** * Facts about the string primitives *)

Module StrFacts.
Import PyStr.

Lemma app_cons c a b : String c a +:+ b = String c (a +:+ b).
Proof. reflexivity. Qed.

Lemma app_nil_l s : "" +:+ s = s.
Proof. reflexivity. Qed.

Lemma app_nil_r s : s +:+ "" = s.
Proof. induction s as [|c s IH]; [reflexivity|]. rewrite app_cons, IH. reflexivity. Qed.

Lemma app_assoc a b c : (a +:+ b) +:+ c = a +:+ b +:+ c.
Proof.
  induction a as [|x a IH]; [reflexivity|].
  rewrite !app_cons, IH. reflexivity.
Qed.

Lemma app_length a b : String.length (a +:+ b) = String.length a + String.length b.
Proof.
  induction a as [|x a IH]; [reflexivity|].
  rewrite app_cons. simpl. rewrite IH. reflexivity.
Qed.

Lemma strip_prefix_app p r : strip_prefix p (p +:+ r) = Some r.
Proof.
  induction p as [|c p IH]; [reflexivity|].
  rewrite app_cons. simpl. rewrite Ascii.eqb_refl. exact IH.
Qed.

Lemma strip_prefix_Some p s r : strip_prefix p s = Some r -> s = p +:+ r.
Proof.
  revert s. induction p as [|c p IH]; intros s H; simpl in H.
  - injection H as ->. reflexivity.
  - destruct s as [|b s]; [discriminate|].
    destruct (Ascii.eqb_spec c b) as [->|]; [|discriminate].
    rewrite app_cons. f_equal. apply IH, H.
Qed.

Lemma starts_with_app p r : starts_with p (p +:+ r) = true.
Proof. unfold starts_with. rewrite strip_prefix_app. reflexivity. Qed.

Lemma starts_with_true p s : starts_with p s = true -> exists r, s = p +:+ r.
Proof.
  unfold starts_with. destruct (strip_prefix p s) as [r|] eqn:E; [|discriminate].
  intros _. exists r. apply strip_prefix_Some, E.
Qed.

Lemma contains_unfold n h :
  contains n h
  = starts_with n h || match h with "" => false | String _ r => contains n r end.
Proof. destruct h; reflexivity. Qed.

Lemma contains_empty s : contains "" s = true.
Proof. destruct s; reflexivity. Qed.

(** [needle in hay] holds exactly when [hay] splits around [needle]. *)
Lemma contains_intro a n b : contains n (a +:+ n +:+ b) = true.
Proof.
  induction a as [|c a IH].
  - rewrite app_nil_l, contains_unfold, starts_with_app. reflexivity.
  - rewrite app_cons, contains_unfold, IH. apply orb_true_r.
Qed.

Lemma contains_elim n h :
  contains n h = true -> exists a b, h = a +:+ n +:+ b.
Proof.
  induction h as [|c h IH]; rewrite contains_unfold; intros H.
  - apply orb_true_iff in H as [H|H]; [|discriminate].
    apply starts_with_true in H as [r ->]. exists "", r. reflexivity.
  - apply orb_true_iff in H as [H|H].
    + apply starts_with_true in H as [r ->]. exists "", r. reflexivity.
    + destruct (IH H) as (a & b & ->). exists (String c a), b. reflexivity.
Qed.

Lemma contains_trans a b c :
  contains a b = true -> contains b c = true -> contains a c = true.
Proof.
  intros Hab Hbc.
  apply contains_elim in Hab as (u & v & ->).
  apply contains_elim in Hbc as (x & y & ->).
  replace (x +:+ (u +:+ a +:+ v) +:+ y) with ((x +:+ u) +:+ a +:+ (v +:+ y))
    by now rewrite !app_assoc.
  apply contains_intro.
Qed.

Lemma contains_app_r n a h : contains n h = true -> contains n (a +:+ h) = true.
Proof.
  intros H. apply (contains_trans n h); [exact H|].
  rewrite <- (app_nil_r h) at 2. apply contains_intro.
Qed.

Lemma contains_app_l n h b : contains n h = true -> contains n (h +:+ b) = true.
Proof.
  intros H. apply (contains_trans n h); [exact H|].
  apply (contains_intro "" h b).
Qed.

Lemma contains_refl s : contains s s = true.
Proof.
  rewrite <- (app_nil_r s) at 2. apply (contains_intro "" s "").
Qed.

Lemma any_in_intro w ws s : In w ws -> contains w s = true -> any_in ws s = true.
Proof.
  intros Hin Hc. unfold any_in. apply existsb_exists. exists w. split; assumption.
Qed.

End StrFacts.

(** * Loops that may raise *)

Section ForEach.
Context {A B : Type}.

Lemma bind_ret {X Y : Type} (x : X) (k : X -> result Y) : bind (Ok x) k = k x.
Proof. reflexivity. Qed.

Lemma bind_Ok {X Y : Type} (m : result X) (k : X -> result Y) (y : Y) :
  bind m k = Ok y -> exists x, m = Ok x /\ k x = Ok y.
Proof. destruct m as [x|err]; simpl; [eauto|discriminate]. Qed.

Lemma for_each_ext (f g : A -> result (list B)) (xs : list A) :
  (forall x, In x xs -> f x = g x) -> for_each f xs = for_each g xs.
Proof.
  induction xs as [|x xs IH]; intros Hfg; [reflexivity|].
  simpl. rewrite (Hfg x) by (left; reflexivity).
  rewrite IH by (intros y Hy; apply Hfg; right; exact Hy). reflexivity.
Qed.

Lemma for_each_In (f : A -> result (list B)) (xs : list A) (ys : list B) (x : A) :
  for_each f xs = Ok ys -> In x xs ->
  exists zs, f x = Ok zs /\ incl zs ys.
Proof.
  revert ys. induction xs as [|a xs IH]; intros ys Hrun Hin; [destruct Hin|].
  simpl in Hrun.
  apply bind_Ok in Hrun as (here & Hhere & Hrun).
  apply bind_Ok in Hrun as (more & Hmore & Hrun).
  injection Hrun as <-.
  destruct Hin as [<-|Hin].
  - exists here. split; [exact Hhere|]. apply incl_appl, incl_refl.
  - destruct (IH more Hmore Hin) as (zs & Hzs & Hincl).
    exists zs. split; [exact Hzs|]. apply incl_appr, Hincl.
Qed.

Lemma for_each_returns (f : A -> result (list B)) (xs : list A) :
  (forall x, In x xs -> exists ys, f x = Ok ys) ->
  exists ys, for_each f xs = Ok ys.
Proof.
  induction xs as [|x xs IH]; intros Hf; [exists []; reflexivity|].
  destruct (Hf x) as [here Hhere]; [left; reflexivity|].
  destruct IH as [more Hmore]; [intros y Hy; apply Hf; right; exact Hy|].
  exists (here ++ more). simpl. rewrite Hhere, Hmore. reflexivity.
Qed.

Lemma for_each_nothing (f : A -> result (list B)) (xs : list A) :
  (forall x, In x xs -> f x = Ok []) -> for_each f xs = Ok [].
Proof.
  induction xs as [|x xs IH]; intros Hf; [reflexivity|].
  simpl. rewrite (Hf x) by (left; reflexivity).
  rewrite IH by (intros y Hy; apply Hf; right; exact Hy). reflexivity.
Qed.

End ForEach.

(** * VendorResolver *)

Section DetectVendors.
Import PyStr.

Lemma aliases_in_none user_query :
  Forall (fun kv => contains (fst kv) user_query = false) vendor_mapping ->
  aliases_in user_query = [].
Proof.
  unfold aliases_in. induction 1 as [|kv l Hkv _ IH]; [reflexivity|].
  simpl. rewrite Hkv. exact IH.
Qed.

Lemma detect_vendors_cases user_query user_id (user_contexts : gmap string string) :
  exists first rest,
    detect_vendors user_query user_id user_contexts
    = (Ok (first :: rest), <[user_id := first]> user_contexts)
    /\ first :: rest
       = match aliases_in user_query, user_contexts !! user_id with
         | [], Some remembered => [remembered]
         | [], None => map snd vendor_mapping
         | explicit, _ => explicit
         end.
Proof.
  unfold detect_vendors.
  destruct (aliases_in user_query) as [|a l];
    [destruct (user_contexts !! user_id) as [r|]|]; simpl; eauto.
Qed.

(** C4.  Vendor detection never raises, returns a non-empty list (the
    explicit matches, else the remembered vendor, else all vendors) and
    always stores the first element of that list as the user's remembered
    vendor, so the user's slot holds exactly that one vendor afterwards. *)
Theorem detect_vendors_remembers_first user_query user_id
    (user_contexts : gmap string string) :
  exists first rest user_contexts',
    detect_vendors user_query user_id user_contexts
    = (Ok (first :: rest), user_contexts')
    /\ first :: rest
       = match aliases_in user_query, user_contexts !! user_id with
         | [], Some remembered => [remembered]
         | [], None => ["Cisco"; "Juniper"; "Palo Alto"; "Fortinet"; "F5"]
         | explicit, _ => explicit
         end
    /\ user_contexts' = <[user_id := first]> user_contexts
    /\ user_contexts' !! user_id = Some first.
Proof.
  destruct (detect_vendors_cases user_query user_id user_contexts)
    as (first & rest & Hd & Hl).
  exists first, rest, (<[user_id := first]> user_contexts).
  split; [exact Hd|]. split; [exact Hl|]. split; [reflexivity|].
  apply lookup_insert_eq.
Qed.

(** C5.  When a detection for user U returned a vendor list, the next
    detection for U on a query without any alias keyword (whatever other
    users did to their own slots in between) returns the one-element list
    holding the first vendor of that earlier list, and keeps it
    remembered. *)
Theorem detect_vendors_sticky q1 q2 user_id
    (ctx0 ctx1 ctx2 : gmap string string) (resolved : list string) :
  detect_vendors q1 user_id ctx0 = (Ok resolved, ctx1) ->
  ctx2 !! user_id = ctx1 !! user_id ->
  Forall (fun kv => contains (fst kv) q2 = false) vendor_mapping ->
  exists first rest,
    resolved = first :: rest
    /\ detect_vendors q2 user_id ctx2 = (Ok [first], <[user_id := first]> ctx2)
    /\ detect_vendors q2 user_id ctx1 = (Ok [first], ctx1).
Proof.
  intros H1 Hsame Hnone.
  destruct (detect_vendors_cases q1 user_id ctx0) as (first & rest & Hd & _).
  rewrite Hd in H1. injection H1 as <- <-.
  exists first, rest. split; [reflexivity|].
  assert (Hl1 : (<[user_id := first]> ctx0) !! user_id = Some first)
    by apply lookup_insert_eq.
  rewrite Hl1 in Hsame.
  unfold detect_vendors. rewrite (aliases_in_none _ Hnone), Hsame, Hl1. simpl.
  split; [reflexivity|].
  rewrite insert_insert_eq. reflexivity.
Qed.

End DetectVendors.

(** "cisco and juniper" resolves to two vendors, and the follow-up "show
    security options" of the same user to the first of them. *)
Lemma detect_vendors_sticky_witness :
  exists first rest,
    ["Cisco"; "Juniper"] = first :: rest
    /\ detect_vendors "show security options" "u1"
         (<["u2" := "F5"]> (<["u1" := "Cisco"]> ∅))
       = (Ok [first], <["u1" := first]> (<["u2" := "F5"]> (<["u1" := "Cisco"]> ∅)))
    /\ detect_vendors "show security options" "u1" (<["u1" := "Cisco"]> ∅)
       = (Ok [first], <["u1" := "Cisco"]> ∅).
Proof.
  apply (detect_vendors_sticky "cisco and juniper" "show security options" "u1" ∅).
  - vm_compute. reflexivity.
  - vm_compute. reflexivity.
  - repeat constructor.
Defined.

(** * IndexStore and the default retrieval path *)

Section Retrieval.
Import PyStr.

Variable similarity_search : faiss -> string -> nat -> list string.

Lemma index_of_None docs : index_of docs = None <-> docs = [].
Proof. destruct docs; split; intros H; try reflexivity; discriminate. Qed.

Lemma no_docs_no_index (docs : gmap string (list string)) vendor :
  docs !! vendor = Some [] \/ docs !! vendor = None ->
  store_get (index_of <$> docs) vendor = None.
Proof.
  intros H. unfold store_get. rewrite lookup_fmap.
  destruct H as [-> | ->]; reflexivity.
Qed.

(** C8.  When startup produced no Document for a vendor in a category
    (the vendor's list of that category is empty, or the vendor is not in
    the knowledge tree at all), startup itself succeeds, no index exists
    for that scope (an empty list is stored as [None]), and the loop body
    of the default retrieval adds nothing to the results for that vendor,
    for every query. *)
Theorem empty_scope_has_no_index dataset docs vendor :
  build_vendor_docs dataset = Ok docs ->
  exists e,
    build_faiss_indexes dataset = Ok e
    /\ (setup_docs docs !! vendor = Some [] \/ setup_docs docs !! vendor = None ->
        store_get (vendor_setup_stores e) vendor = None
        /\ (setup_docs docs !! vendor = Some [] ->
            vendor_setup_stores e !! vendor = Some None)
        /\ forall q, search_vendor similarity_search e true q vendor = [])
    /\ (security_docs docs !! vendor = Some [] \/ security_docs docs !! vendor = None ->
        store_get (vendor_security_stores e) vendor = None
        /\ (security_docs docs !! vendor = Some [] ->
            vendor_security_stores e !! vendor = Some None)
        /\ forall q, search_vendor similarity_search e false q vendor = []).
Proof.
  intros Hdocs. unfold build_faiss_indexes. rewrite Hdocs. simpl.
  eexists; split; [reflexivity|].
  split; intros Hempty;
    (split; [apply no_docs_no_index, Hempty|]);
    (split; [intros Hsome; simpl; rewrite lookup_fmap, Hsome; reflexivity|]);
    intros q; unfold search_vendor; simpl;
    rewrite (no_docs_no_index _ _ Hempty); reflexivity.
Qed.

Lemma retrieval_response_nonempty all_results :
  retrieval_response all_results <> [].
Proof. destruct all_results; discriminate. Qed.

(** The default retrieval resolves the vendors, which cannot fail, and
    answers from the searches over them. *)
Lemma default_retrieval_cases e user_query user_id
    (user_contexts : gmap string string) :
  exists first rest,
    detect_vendors user_query user_id user_contexts
    = (Ok (first :: rest), <[user_id := first]> user_contexts)
    /\ default_retrieval similarity_search e user_query user_id user_contexts
       = (Ok (retrieval_response
                (flat_map (search_vendor similarity_search e
                             (contains "setup" user_query
                              || contains "configure" user_query)
                             user_query)
                   (first :: rest))),
          <[user_id := first]> user_contexts).
Proof.
  destruct (detect_vendors_cases user_query user_id user_contexts)
    as (first & rest & Hd & _).
  exists first, rest. split; [exact Hd|].
  unfold default_retrieval. rewrite Hd. reflexivity.
Qed.

(** C9.  The default retrieval path always answers with a non-empty
    results list, and when the searches of all resolved vendors together
    return nothing, that list is exactly the fixed "nothing useful found"
    message. *)
Theorem default_retrieval_never_empty e user_query user_id
    (user_contexts : gmap string string) :
  exists mentioned_vendors user_contexts' results,
    detect_vendors user_query user_id user_contexts
    = (Ok mentioned_vendors, user_contexts')
    /\ default_retrieval similarity_search e user_query user_id user_contexts
       = (Ok results, user_contexts')
    /\ results <> []
    /\ (flat_map (search_vendor similarity_search e
                    (contains "setup" user_query || contains "configure" user_query)
                    user_query)
          mentioned_vendors = [] ->
        results = [nothing_found]).
Proof.
  destruct (default_retrieval_cases e user_query user_id user_contexts)
    as (first & rest & Hd & Hr).
  eexists _, _, _. split; [exact Hd|]. split; [exact Hr|].
  split; [apply retrieval_response_nonempty|].
  intros ->. reflexivity.
Qed.

End Retrieval.

Lemma empty_scope_has_no_index_witness :
  exists e,
    build_faiss_indexes Sample.dataset = Ok e
    /\ vendor_setup_stores e !! "Juniper" = Some None
    /\ (forall q, search_vendor Sample.similarity_search e true q "Juniper" = [])
    /\ store_get (vendor_security_stores e) "F5" = None
    /\ (forall q, search_vendor Sample.similarity_search e false q "F5" = []).
Proof.
  destruct (build_vendor_docs Sample.dataset) as [docs|x] eqn:Hdocs;
    [|vm_compute in Hdocs; discriminate].
  destruct (empty_scope_has_no_index Sample.similarity_search
              Sample.dataset docs "Juniper" Hdocs) as (e & He & Hsetup & _).
  destruct (empty_scope_has_no_index Sample.similarity_search
              Sample.dataset docs "F5" Hdocs) as (e' & He' & _ & Hsec).
  rewrite He in He'. injection He' as <-.
  assert (Hs : setup_docs docs !! "Juniper" = Some []).
  { vm_compute in Hdocs. injection Hdocs as <-. vm_compute. reflexivity. }
  assert (Ht : security_docs docs !! "F5" = None).
  { vm_compute in Hdocs. injection Hdocs as <-. vm_compute. reflexivity. }
  exists e. split; [exact He|].
  destruct (Hsetup (or_introl Hs)) as (_ & H1 & H2).
  destruct (Hsec (or_intror Ht)) as (H3 & _ & H4).
  split; [exact (H1 Hs)|]. split; [exact H2|]. split; [exact H3|exact H4].
Defined.

Lemma default_retrieval_never_empty_witness :
  default_retrieval Sample.similarity_search Sample.e "juniper hardening"
    "default_user" ∅
  = (Ok [nothing_found], <["default_user" := "Juniper"]> ∅).
Proof.
  destruct (default_retrieval_never_empty Sample.similarity_search Sample.e
              "juniper hardening" "default_user" ∅)
    as (vs & ctx' & results & Hd & Hr & _ & Hempty).
  rewrite Hr. vm_compute in Hd. injection Hd as <- <-.
  rewrite Hempty; [reflexivity|]. vm_compute. reflexivity.
Defined.

(** * QueryClassifier *)

Section Routing.
Import PyStr StrFacts.

Variable dataset : json.
Variable similarity_search : faiss -> string -> nat -> list string.
Variable get_preview : string -> string.
Variable re_search : string -> string -> result (option string).

Local Abbreviation query_faiss' :=
  (query_faiss dataset similarity_search get_preview re_search).
Local Abbreviation features_or_default' :=
  (features_or_default dataset similarity_search).
Local Abbreviation default_retrieval' := (default_retrieval similarity_search).
Local Abbreviation generate_feature_list' := (generate_feature_list dataset).
Local Abbreviation handle_scenario' := (handle_scenario re_search).

Lemma query_faiss_rule5 e data (ctx : gmap string string) :
  reaches_rule5 (normalize data) ->
  query_faiss' e data ctx
  = features_or_default' e (normalize data) (user_of data) ctx.
Proof.
  intros (H1 & H2 & H3 & H4 & H5). unfold query_faiss.
  rewrite H1, H2, H3, H4, H5. reflexivity.
Qed.

(** "set" occurs in "setup", and "configure" is a verb of rule 4. *)
Lemma setup_is_config_verb user_query :
  contains "setup" user_query = true \/ contains "configure" user_query = true ->
  any_in config_verbs user_query = true.
Proof.
  intros [H|H].
  - apply (any_in_intro "set"); [simpl; tauto|].
    apply (contains_trans "set" "setup"); [reflexivity|exact H].
  - apply (any_in_intro "configure"); [simpl; tauto|exact H].
Qed.

Lemma no_config_verb_no_setup user_query :
  any_in config_verbs user_query = false ->
  contains "setup" user_query = false /\ contains "configure" user_query = false.
Proof.
  intros Hv.
  destruct (contains "setup" user_query) eqn:Hs;
    [rewrite setup_is_config_verb in Hv by (left; exact Hs); discriminate|].
  destruct (contains "configure" user_query) eqn:Hc;
    [rewrite setup_is_config_verb in Hv by (right; exact Hc); discriminate|].
  split; reflexivity.
Qed.

(** C1 (as amended).  A normalized query that contains "features" but
    neither "security" nor "setup", and that none of the first four rules
    matched, is answered by the default retrieval path: the feature rule
    resolves the vendors, returns nothing, and the code runs on into the
    default retrieval (which resolves the vendors again, on the context
    the first resolution updated) and produces a non-empty results list. *)
Theorem features_without_category_falls_to_default e data
    (ctx : gmap string string) :
  reaches_rule5 (normalize data) ->
  contains "features" (normalize data) = true ->
  contains "security" (normalize data) = false ->
  contains "setup" (normalize data) = false ->
  exists vendors_found ctx1 results ctx2,
    detect_vendors (normalize data) (user_of data) ctx = (Ok vendors_found, ctx1)
    /\ query_faiss' e data ctx
       = default_retrieval' e (normalize data) (user_of data) ctx1
    /\ query_faiss' e data ctx = (Ok results, ctx2)
    /\ results <> [].
Proof.
  intros Hr Hf Hsec Hset.
  destruct (detect_vendors_cases (normalize data) (user_of data) ctx)
    as (first & rest & Hd & _).
  destruct (default_retrieval_cases similarity_search e (normalize data)
              (user_of data) (<[user_of data := first]> ctx))
    as (f2 & r2 & _ & Hdef).
  eexists (first :: rest), (<[user_of data := first]> ctx), _, _.
  split; [exact Hd|].
  assert (Hq : query_faiss' e data ctx
               = default_retrieval' e (normalize data) (user_of data)
                   (<[user_of data := first]> ctx)).
  { rewrite query_faiss_rule5 by exact Hr.
    unfold features_or_default. rewrite Hf, Hd, Hsec, Hset. reflexivity. }
  split; [exact Hq|]. split; [rewrite Hq; exact Hdef|].
  apply retrieval_response_nonempty.
Qed.

(** C2.  A query that is not rejected, is not a greeting and is not in
    preview mode goes to the scenario synthesizer as soon as it contains
    "setup" or "configure"; consequently every request is answered by the
    rejection, the greeting, the preview, the scenario synthesizer, the
    feature lister for the security category, or the default retrieval
    over the security stores: the setup branch of the feature rule and
    the setup stores of the default retrieval are never used. *)
Theorem setup_queries_go_to_scenario e data (ctx : gmap string string) :
  (any_in irrelevant_keywords (normalize data) = false ->
   any_in greetings (normalize data) = false ->
   contains "preview" (normalize data) = false ->
   contains "impact" (normalize data) = false ->
   contains "setup" (normalize data) = true
   \/ contains "configure" (normalize data) = true ->
   query_faiss' e data ctx
   = (single (handle_scenario' (all_commands e) (normalize data)), ctx))
  /\ (query_faiss' e data ctx = (Ok [scope_reminder], ctx)
      \/ query_faiss' e data ctx = (Ok [greeting], ctx)
      \/ query_faiss' e data ctx = (Ok [get_preview (normalize data)], ctx)
      \/ query_faiss' e data ctx
         = (single (handle_scenario' (all_commands e) (normalize data)), ctx)
      \/ (exists vendors_found ctx1,
            detect_vendors (normalize data) (user_of data) ctx
            = (Ok vendors_found, ctx1)
            /\ query_faiss' e data ctx
               = (single (generate_feature_list' vendors_found "security"
                            (level_filter_of (normalize data))), ctx1))
      \/ (exists mentioned_vendors ctx1,
            query_faiss' e data ctx
            = (Ok (retrieval_response
                     (flat_map (search_vendor similarity_search e false
                                  (normalize data))
                        mentioned_vendors)), ctx1))).
Proof.
  split.
  - intros H1 H2 H3 H4 Hs. unfold query_faiss.
    rewrite H1, H2, H3, H4, (setup_is_config_verb _ Hs). reflexivity.
  - unfold query_faiss.
    destruct (any_in irrelevant_keywords (normalize data)); [tauto|].
    destruct (any_in greetings (normalize data)); [tauto|].
    destruct (contains "preview" (normalize data) || contains "impact" (normalize data));
      [tauto|].
    destruct (any_in config_verbs (normalize data)) eqn:Hv; [tauto|].
    destruct (no_config_verb_no_setup _ Hv) as [Hset Hconf].
    do 4 right. fold (user_of data).
    unfold features_or_default, default_retrieval.
    rewrite Hset, Hconf. simpl.
    destruct (contains "features" (normalize data)).
    + destruct (detect_vendors_cases (normalize data) (user_of data) ctx)
        as (first & rest & Hd & _).
      rewrite Hd.
      destruct (contains "security" (normalize data)).
      * left. eexists _, _. split; reflexivity.
      * right.
        destruct (detect_vendors_cases (normalize data) (user_of data)
                    (<[user_of data := first]> ctx)) as (f2 & r2 & Hd2 & _).
        rewrite Hd2. eexists _, _. reflexivity.
    + right.
      destruct (detect_vendors_cases (normalize data) (user_of data) ctx)
        as (first & rest & Hd & _).
      rewrite Hd. eexists _, _. reflexivity.
Qed.

(** C3 (as amended).  On a query that reaches the feature rule and
    contains "features" and "security", the classifier answers with the
    feature lister called on the resolved vendors with the category
    "security" and the level filter derived from the query ("advanced",
    else "basic", else none).  The setup branch of the rule (taken when
    the query has "setup" but not "security") calls the feature lister
    with the category "setup" and no level filter. *)
Theorem features_rule_delegation e user_query user_id (ctx : gmap string string) :
  contains "features" user_query = true ->
  exists vendors_found ctx1,
    detect_vendors user_query user_id ctx = (Ok vendors_found, ctx1)
    /\ (contains "security" user_query = true ->
        features_or_default' e user_query user_id ctx
        = (single (generate_feature_list' vendors_found "security"
                     (if contains "advanced" user_query then Some "advanced"
                      else if contains "basic" user_query then Some "basic"
                      else None)), ctx1)
        /\ forall data,
             normalize data = user_query -> user_of data = user_id ->
             reaches_rule5 user_query ->
             query_faiss' e data ctx
             = features_or_default' e user_query user_id ctx)
    /\ (contains "security" user_query = false ->
        contains "setup" user_query = true ->
        features_or_default' e user_query user_id ctx
        = (single (generate_feature_list' vendors_found "setup" None), ctx1)).
Proof.
  intros Hf.
  destruct (detect_vendors_cases user_query user_id ctx) as (first & rest & Hd & _).
  exists (first :: rest), (<[user_id := first]> ctx).
  split; [exact Hd|]. split.
  - intros Hsec. split.
    + unfold features_or_default. rewrite Hf, Hd, Hsec. reflexivity.
    + intros data <- <- Hr. apply query_faiss_rule5, Hr.
  - intros Hsec Hset.
    unfold features_or_default. rewrite Hf, Hd, Hsec, Hset. reflexivity.
Qed.

End Routing.

(** The query "features" contains neither category keyword and passes the
    first four rules, yet it is answered, and by the default retrieval
    path: the response is the security document the search returns. *)
Lemma features_only_counterexample :
  normalize (Request (Some "Features") None) = "features"
  /\ reaches_rule5 "features"
  /\ PyStr.contains "security" "features" = false
  /\ PyStr.contains "setup" "features" = false
  /\ Sample.run "Features" ∅
     = default_retrieval Sample.similarity_search Sample.e "features"
         "default_user" (<["default_user" := "Cisco"]> ∅)
  /\ Sample.run "Features" ∅
     = (Ok [Sample.ssh_document], <["default_user" := "Cisco"]> ∅).
Proof. vm_compute. repeat split. Qed.

Lemma features_without_category_falls_to_default_witness :
  exists vendors_found ctx1 results ctx2,
    detect_vendors "features" "default_user" ∅ = (Ok vendors_found, ctx1)
    /\ Sample.run "Features" ∅
       = default_retrieval Sample.similarity_search Sample.e "features"
           "default_user" ctx1
    /\ Sample.run "Features" ∅ = (Ok results, ctx2)
    /\ results <> [].
Proof.
  apply (features_without_category_falls_to_default Sample.dataset
           Sample.similarity_search Sample.get_preview Re.search Sample.e
           (Request (Some "Features") None) ∅).
  - vm_compute. repeat split.
  - reflexivity.
  - reflexivity.
  - reflexivity.
Defined.

Lemma setup_queries_go_to_scenario_witness :
  Sample.run "Cisco setup guide" ∅
  = (single (handle_scenario Re.search (all_commands Sample.e) "cisco setup guide"), ∅).
Proof.
  apply (proj1 (setup_queries_go_to_scenario Sample.dataset
                  Sample.similarity_search Sample.get_preview Re.search Sample.e
                  (Request (Some "Cisco setup guide") None) ∅)).
  - reflexivity.
  - reflexivity.
  - reflexivity.
  - reflexivity.
  - left. reflexivity.
Defined.

(** The query "advanced setup features" contains "features" and the
    category keyword "setup", and the derived level filter is "advanced".
    The feature rule calls the lister for "setup" without that filter, which
    on the sample data differs from the call with the filter; and the
    classifier as a whole never gets to the feature rule for this query: it
    answers with the scenario synthesizer's guidance. *)
Lemma features_setup_filter_counterexample :
  PyStr.contains "features" "advanced setup features" = true
  /\ PyStr.contains "setup" "advanced setup features" = true
  /\ level_filter_of "advanced setup features" = Some "advanced"
  /\ fst (features_or_default Sample.dataset Sample.similarity_search Sample.e
            "advanced setup features" "default_user" ∅)
     = single (generate_feature_list Sample.dataset
                 ["Cisco"; "Juniper"; "Palo Alto"; "Fortinet"; "F5"] "setup" None)
  /\ fst (features_or_default Sample.dataset Sample.similarity_search Sample.e
            "advanced setup features" "default_user" ∅)
     <> single (generate_feature_list Sample.dataset
                  ["Cisco"; "Juniper"; "Palo Alto"; "Fortinet"; "F5"] "setup"
                  (Some "advanced"))
  /\ Sample.run "advanced setup features" ∅ = (Ok [scenario_guidance], ∅).
Proof. vm_compute. repeat split. discriminate. Qed.

Lemma features_rule_delegation_witness :
  (exists vendors_found ctx1,
     detect_vendors "cisco basic security features" "default_user" ∅
     = (Ok vendors_found, ctx1)
     /\ features_or_default Sample.dataset Sample.similarity_search Sample.e
          "cisco basic security features" "default_user" ∅
        = (single (generate_feature_list Sample.dataset ["Cisco"] "security"
                     (Some "basic")), ctx1)
     /\ Sample.run "Cisco basic security features" ∅
        = features_or_default Sample.dataset Sample.similarity_search Sample.e
            "cisco basic security features" "default_user" ∅)
  /\ features_or_default Sample.dataset Sample.similarity_search Sample.e
       "cisco advanced setup features" "default_user" ∅
     = (single (generate_feature_list Sample.dataset ["Cisco"] "setup" None),
        <["default_user" := "Cisco"]> ∅).
Proof.
  split.
  - destruct (features_rule_delegation Sample.dataset Sample.similarity_search
                Sample.get_preview Re.search Sample.e
                "cisco basic security features" "default_user" ∅)
      as (vs & ctx1 & Hd & Hsec & _); [reflexivity|].
    destruct (Hsec eq_refl) as [Hfd Hq].
    exists vs, ctx1. split; [exact Hd|].
    vm_compute in Hd. injection Hd as <- <-.
    split; [exact Hfd|].
    apply (Hq (Request (Some "Cisco basic security features") None));
      [reflexivity|reflexivity|vm_compute; repeat split].
  - destruct (features_rule_delegation Sample.dataset Sample.similarity_search
                Sample.get_preview Re.search Sample.e
                "cisco advanced setup features" "default_user" ∅)
      as (vs & ctx1 & Hd & _ & Hset); [reflexivity|].
    vm_compute in Hd. injection Hd as <- <-.
    apply Hset; reflexivity.
Defined.

(** * TreeFlattener *)

Section Walk.
Import PyStr.

(** C6 (as amended).  On an object node the walk emits the Commands and
    Documents of the node's "setup" and "security" keys and then recurses
    into every child key, "setup" and "security" included, whose lowercased
    name is not a lowercased vendor display name, with "/" and the key
    appended to the device path; on a node that is not an object it emits
    nothing. *)
Theorem collect_features_walk vendor device_path :
  (forall d,
     collect_features vendor (JDict d) device_path
     = do from_setup <- collect_setup vendor device_path d;
       do from_security <- collect_security vendor device_path d;
       do from_children <-
         for_each (fun kv =>
                     if in_list (lower (fst kv))
                          ["cisco"; "juniper"; "palo alto"; "fortinet"; "f5"]
                     then Ok []
                     else collect_features vendor (snd kv)
                            (device_path +:+ "/" +:+ fst kv))
                  d;
       Ok (from_setup ++ from_security ++ from_children))
  /\ (forall subtree,
        (forall d, subtree <> JDict d) ->
        collect_features vendor subtree device_path = Ok []).
Proof.
  split.
  - intros d. simpl.
    destruct (collect_setup vendor device_path d) as [s|]; [|reflexivity].
    destruct (collect_security vendor device_path d) as [t|]; [|reflexivity].
    simpl. f_equal. apply for_each_ext. intros [key val] _. reflexivity.
  - intros subtree Hnot. destruct subtree; try reflexivity.
    contradiction (Hnot d). reflexivity.
Qed.

End Walk.

(** ** Where the walk and the walk over the other keys agree *)

Section WalkAgreement.
Import PyStr.

Lemma json_dict_ind (P : json -> Prop) :
  (forall j, (forall d, j <> JDict d) -> P j) ->
  (forall d, Forall (fun kv => P (snd kv)) d -> P (JDict d)) ->
  forall j, P j.
Proof.
  intros Hleaf Hdict.
  refine (fix IH (j : json) : P j :=
            match j with
            | JDict d =>
                Hdict d
                  ((fix go (items : pydict) : Forall (fun kv => P (snd kv)) items :=
                      match items with
                      | [] => @List.Forall_nil _ _
                      | kv :: rest => @List.Forall_cons _ _ kv rest (IH (snd kv)) (go rest)
                      end) d)
            | _ => Hleaf _ _
            end); intros d'; discriminate.
Qed.

Lemma get_In_NoDup (d : pydict) k v :
  NoDup (map fst d) -> In (k, v) d -> PyDict.get k d = Some v.
Proof.
  induction d as [|[k' v'] d IH]; intros Hnd Hin; [destruct Hin|].
  simpl in Hnd. apply NoDup_cons in Hnd as [Hfresh Hnd]. simpl.
  destruct Hin as [Heq|Hin].
  - injection Heq as -> ->. rewrite String.eqb_refl. reflexivity.
  - destruct (String.eqb_spec k k') as [->|_]; [|apply IH; assumption].
    exfalso. apply Hfresh, list_elem_of_In. apply (in_map fst) in Hin. exact Hin.
Qed.

Lemma plain_levels_child d k v :
  plain_levels (JDict d) -> In (k, v) d -> plain_levels v.
Proof.
  intros (_ & _ & Hchildren). revert Hchildren.
  induction d as [|[k' v'] d IH]; intros Hc Hin; [destruct Hin|].
  destruct Hc as [Hv Hc]. destruct Hin as [Heq|Hin].
  - injection Heq as -> ->. exact Hv.
  - apply IH; assumption.
Qed.

(** A value that one of the command loops iterated without raising is
    not a node with children: the walk emits nothing on it. *)
Lemma iterated_value_is_silent (emit : json -> result (list emission)) v cmds out :
  (forall s, emit (JStr s) = Raise TypeError) ->
  py_iter v = Ok cmds ->
  for_each emit cmds = Ok out ->
  forall vendor device_path, collect_features vendor v device_path = Ok [].
Proof.
  intros Hemit Hiter Hloop vendor device_path.
  destruct v as [| | | | |d]; try reflexivity.
  destruct d as [|[k x] d]; [reflexivity|].
  simpl in Hiter. injection Hiter as <-.
  simpl in Hloop. rewrite Hemit in Hloop. discriminate.
Qed.

Lemma setup_child_is_silent vendor device_path d out v :
  collect_setup vendor device_path d = Ok out ->
  NoDup (map fst d) -> In ("setup", v) d ->
  forall device_path', collect_features vendor v device_path' = Ok [].
Proof.
  intros Hrun Hnd Hin device_path'.
  unfold collect_setup in Hrun. rewrite (get_In_NoDup d _ _ Hnd Hin) in Hrun.
  apply bind_Ok in Hrun as (cmds & Hiter & Hloop).
  apply (iterated_value_is_silent (emit_setup vendor device_path) v cmds out);
    [reflexivity|assumption..].
Qed.

Lemma security_child_is_silent vendor device_path d out v :
  collect_security vendor device_path d = Ok out ->
  plain_levels (JDict d) -> In ("security", v) d ->
  forall device_path', collect_features vendor v device_path' = Ok [].
Proof.
  intros Hrun (Hnd & Hlevels & _) Hin device_path'.
  pose proof (get_In_NoDup d _ _ Hnd Hin) as Hget.
  unfold collect_security in Hrun. rewrite Hget in Hrun. rewrite Hget in Hlevels.
  apply bind_Ok in Hrun as (levels & Hitems & Hloop).
  destruct v as [| | | | |levels']; try discriminate. injection Hitems as ->.
  destruct Hlevels as [Hno_setup Hno_security].
  simpl. unfold collect_setup, collect_security.
  rewrite Hno_setup, Hno_security, !bind_ret.
  rewrite for_each_nothing; [reflexivity|].
  intros [lk lv] Hlv. destruct (is_vendor_name lk); [reflexivity|].
  destruct (for_each_In _ _ _ _ Hloop Hlv) as (zs & Hbody & _).
  apply bind_Ok in Hbody as (cs & Hiter & Hcs).
  apply (iterated_value_is_silent (emit_security vendor device_path lk) lv cs zs);
    [reflexivity|assumption..].
Qed.

(** On a tree with plain levels, recursing into the "setup" and "security"
    keys adds nothing and raises nothing: the walk of the code and the walk
    over the other keys return the same. *)
Theorem collect_features_agrees_on_plain_levels subtree :
  plain_levels subtree ->
  forall vendor device_path,
    collect_features vendor subtree device_path
    = collect_features_spec vendor subtree device_path.
Proof.
  induction subtree as [j Hleaf|d IH] using json_dict_ind; intros Hplain vendor device_path.
  - destruct j; try reflexivity. contradiction (Hleaf d). reflexivity.
  - simpl.
    destruct (collect_setup vendor device_path d) as [s|] eqn:Hs; [|reflexivity].
    destruct (collect_security vendor device_path d) as [t|] eqn:Ht; [|reflexivity].
    rewrite !bind_ret. f_equal. apply for_each_ext. intros [k v] Hin.
    destruct (is_vendor_name k); [rewrite orb_true_r; reflexivity|].
    rewrite orb_false_r.
    destruct (String.eqb_spec k "setup") as [->|_].
    { apply (setup_child_is_silent vendor device_path d s v Hs (proj1 Hplain) Hin). }
    destruct (String.eqb_spec k "security") as [->|_].
    { apply (security_child_is_silent vendor device_path d t v Ht Hplain Hin). }
    simpl.
    apply (proj1 (List.Forall_forall _ _) IH (k, v) Hin).
    apply (plain_levels_child d k v Hplain Hin).
Qed.

End WalkAgreement.

Example sample_dataset_has_plain_levels : plain_levels Sample.dataset.
Proof.
  simpl. repeat split; apply (bool_decide_unpack _); vm_compute; reflexivity.
Qed.

(** A node whose "security" map has a level named "setup".  The walk emits
    the security Command of that level, then recurses into the "security"
    key itself and emits the same entry again as a setup Command under the
    path "Cisco/security"; a walk that recurses only into the other child
    keys emits the first one alone.  At startup the vendor gets a setup
    index that such a walk would not build. *)
Lemma collect_features_spec_counterexample :
  let node := JDict [ ("security", JDict [ ("setup", JList [Sample.ssh]) ]) ] in
  exists first second,
    collect_features "Cisco" node "Cisco" = Ok [first; second]
    /\ em_category first = Security
    /\ em_category second = Setup
    /\ PyDict.get "device" (em_command second) = Some (JStr "Cisco/security")
    /\ collect_features_spec "Cisco" node "Cisco" = Ok [first]
    /\ (exists e index,
          build_faiss_indexes (JDict [ ("vendors", JDict [ ("Cisco", node) ]) ]) = Ok e
          /\ vendor_setup_stores e !! "Cisco" = Some (Some index)).
Proof.
  vm_compute. eexists _, _. repeat split. eexists _, _. split; reflexivity.
Qed.

Lemma collect_features_walk_witness :
  collect_features "Cisco" (JList [Sample.ssh]) "Cisco/Router/setup" = Ok []
  /\ collect_features "Cisco" (JStr "ssh") "Cisco/Router/name" = Ok [].
Proof.
  split.
  - apply (proj2 (collect_features_walk "Cisco" "Cisco/Router/setup")).
    intros d. discriminate.
  - apply (proj2 (collect_features_walk "Cisco" "Cisco/Router/name")).
    intros d. discriminate.
Defined.

(** * ScenarioSynthesizer *)

Section Scenario.
Import PyStr StrFacts.

Variable re_search : string -> string -> result (option string).

Local Abbreviation fill_template' := (fill_template re_search).
Local Abbreviation scenario_entry' := (scenario_entry re_search).
Local Abbreviation handle_scenario' := (handle_scenario re_search).

Lemma join_contains sep parts x :
  In x parts -> contains x (join sep parts) = true.
Proof.
  induction parts as [|p rest IH]; intros Hin; [destruct Hin|].
  destruct rest as [|p' rest'].
  - destruct Hin as [<-|[]]. simpl. apply contains_refl.
  - change (join sep (p :: p' :: rest')) with (p +:+ sep +:+ join sep (p' :: rest')).
    destruct Hin as [<-|Hin].
    + apply contains_app_l, contains_refl.
    + rewrite <- app_assoc. apply contains_app_r, IH, Hin.
Qed.

(** What a command appends to [matched] shows in the response. *)
Lemma scenario_entry_in_output cmds query out cmd entry :
  handle_scenario' cmds query = Ok out ->
  In cmd cmds ->
  scenario_entry' query cmd = Ok [entry] ->
  exists matched,
    In entry matched
    /\ out = scenario_header +:+ join (nl +:+ nl) matched
    /\ contains entry out = true.
Proof.
  intros Hrun Hin Hentry. unfold handle_scenario in Hrun.
  apply bind_Ok in Hrun as (matched & Hloop & Hout).
  destruct (for_each_In _ _ _ _ Hloop Hin) as (zs & Hzs & Hincl).
  rewrite Hentry in Hzs. injection Hzs as <-.
  assert (Hm : In entry matched) by (apply Hincl; left; reflexivity).
  exists matched. split; [exact Hm|].
  destruct matched as [|m ms]; [destruct Hm|].
  injection Hout as <-. split; [reflexivity|].
  apply contains_app_r. exact (join_contains (nl +:+ nl) (m :: ms) entry Hm).
Qed.

(** The outcome of [scenario_entry] on a command that matches. *)
Lemma scenario_entry_hit query cmd name :
  PyDict.get "name" cmd = Some (JStr name) ->
  any_term_in query
    [JStr name;
     match PyDict.get "description" cmd with Some d => d | None => JStr "" end]
  = Ok true ->
  forall entries,
    scenario_entry' query cmd = Ok entries ->
    exists template filled,
      PyDict.get "command" cmd = Some (JStr template)
      /\ fill_template' query template = Ok filled
      /\ entries = [name +:+ nl +:+ filled].
Proof.
  intros Hname Hhit entries Hentry. unfold scenario_entry, PyDict.item in Hentry.
  rewrite Hname, bind_ret, Hhit, bind_ret in Hentry.
  destruct (PyDict.get "command" cmd) as [[| | |template| |]|]; try discriminate.
  rewrite bind_ret in Hentry.
  apply bind_Ok in Hentry as (filled & Hfill & Hentry).
  simpl in Hentry. injection Hentry as <-.
  exists template, filled. repeat split. exact Hfill.
Qed.

Lemma fill_keys_returns query keys filled :
  (forall key, In key keys ->
               exists guess, re_search (replace "_" " " key) query = Ok guess) ->
  exists out, fill_keys re_search query keys filled = Ok out.
Proof.
  revert filled. induction keys as [|key keys IH]; intros filled Hk.
  - exists filled. reflexivity.
  - destruct (Hk key) as [guess Hguess]; [left; reflexivity|].
    simpl. unfold fill_one. rewrite Hguess, !bind_ret.
    apply IH. intros k Hin. apply Hk. right. exact Hin.
Qed.

(** Scenario synthesis returns on a registry of well-formed commands
    whose placeholder patterns compile. *)
Lemma handle_scenario_returns cmds query :
  Forall well_formed_command cmds ->
  patterns_compile re_search cmds query ->
  exists out, handle_scenario' cmds query = Ok out.
Proof.
  intros Hwf Hre.
  destruct (for_each_returns (scenario_entry' query) cmds) as [matched Hm].
  - intros cmd Hin.
    destruct (proj1 (List.Forall_forall _ _) Hwf cmd Hin)
      as ((name & Hname) & (template & Htemplate) & Hdesc).
    unfold scenario_entry, PyDict.item. rewrite Hname, Htemplate, bind_ret.
    assert (Hhit : exists hit,
               any_term_in query
                 [JStr name;
                  match PyDict.get "description" cmd with
                  | Some d => d
                  | None => JStr ""
                  end] = Ok hit).
    { destruct Hdesc as [-> | [d ->]]; simpl;
        repeat match goal with |- context [if ?b then _ else _] => destruct b end;
        eauto. }
    destruct Hhit as [[|] ->]; rewrite bind_ret; [|eauto].
    destruct (fill_keys_returns query (Re.findall_brackets template) template)
      as [filled Hfilled].
    { intros key Hkey. apply (Hre cmd template key Hin Htemplate Hkey). }
    rewrite bind_ret. unfold fill_template. rewrite Hfilled. simpl. eauto.
  - unfold handle_scenario. rewrite Hm, bind_ret. destruct matched; eauto.
Qed.

Lemma empty_description_entry cmds query out cmd :
  handle_scenario' cmds query = Ok out ->
  In cmd cmds ->
  PyDict.get "description" cmd = None
  \/ PyDict.get "description" cmd = Some (JStr "") ->
  exists name template filled,
    PyDict.get "name" cmd = Some (JStr name)
    /\ any_term_in query [JStr name; JStr ""] = Ok true
    /\ PyDict.get "command" cmd = Some (JStr template)
    /\ fill_template' query template = Ok filled
    /\ contains (name +:+ nl +:+ filled) out = true.
Proof.
  intros Hrun Hin Hdesc.
  assert (Hd : match PyDict.get "description" cmd with
               | Some d => d
               | None => JStr ""
               end = JStr "") by (destruct Hdesc as [-> | ->]; reflexivity).
  pose proof Hrun as Hloop. unfold handle_scenario in Hloop.
  apply bind_Ok in Hloop as (matched & Hloop & _).
  destruct (for_each_In _ _ _ _ Hloop Hin) as (entries & Hentry & _).
  pose proof Hentry as Hshape. unfold scenario_entry, PyDict.item in Hshape.
  destruct (PyDict.get "name" cmd) as [name_v|] eqn:Hname; [|discriminate].
  rewrite bind_ret, Hd in Hshape.
  destruct name_v as [| | |name| |]; try discriminate.
  assert (Hhit : any_term_in query [JStr name; JStr ""] = Ok true).
  { simpl. destruct (contains (lower name) query); [reflexivity|].
    rewrite contains_empty. reflexivity. }
  clear Hshape.
  destruct (scenario_entry_hit query cmd name Hname) with (entries := entries)
    as (template & filled & Hcmd & Hfill & ->);
    [rewrite Hd; exact Hhit|exact Hentry|].
  destruct (scenario_entry_in_output cmds query out cmd _ Hrun Hin Hentry)
    as (_ & _ & _ & Hout).
  exists name, template, filled. repeat split; assumption.
Qed.

(** C10.  A Command whose description is missing or empty matches every
    query: whenever a scenario synthesis over a registry holding it
    returns, the Command has a string name, the matcher accepts it for that
    query (the empty string is a substring of every query), and its name
    followed by its filled template is part of the returned text; and the
    synthesis does return, for every query, when the registry is well
    formed and its placeholder patterns compile. *)
Theorem empty_description_matches_every_query cmds query cmd :
  In cmd cmds ->
  PyDict.get "description" cmd = None
  \/ PyDict.get "description" cmd = Some (JStr "") ->
  (forall out,
     handle_scenario' cmds query = Ok out ->
     exists name template filled,
       PyDict.get "name" cmd = Some (JStr name)
       /\ any_term_in query [JStr name; JStr ""] = Ok true
       /\ PyDict.get "command" cmd = Some (JStr template)
       /\ fill_template' query template = Ok filled
       /\ contains (name +:+ nl +:+ filled) out = true)
  /\ (Forall well_formed_command cmds ->
      patterns_compile re_search cmds query ->
      exists out, handle_scenario' cmds query = Ok out).
Proof.
  intros Hin Hdesc. split.
  - intros out Hrun. apply (empty_description_entry cmds query out cmd); assumption.
  - apply handle_scenario_returns.
Qed.

End Scenario.

Lemma empty_description_matches_every_query_witness :
  (exists name template filled,
     PyDict.get "name" [ ("name", JStr "Banner"); ("command", JStr "banner motd [text]") ]
     = Some (JStr name)
     /\ any_term_in "enable ssh" [JStr name; JStr ""] = Ok true
     /\ PyDict.get "command"
          [ ("name", JStr "Banner"); ("command", JStr "banner motd [text]") ]
        = Some (JStr template)
     /\ fill_template Re.search "enable ssh" template = Ok filled
     /\ PyStr.contains (name +:+ PyStr.nl +:+ filled)
          (scenario_header +:+ "Banner" +:+ PyStr.nl +:+ "banner motd [text]")
        = true)
  /\ (exists out,
        handle_scenario Re.search
          [ [ ("name", JStr "Banner"); ("command", JStr "banner motd [text]") ] ]
          "enable ssh" = Ok out).
Proof.
  destruct (empty_description_matches_every_query Re.search
              [ [ ("name", JStr "Banner"); ("command", JStr "banner motd [text]") ] ]
              "enable ssh"
              [ ("name", JStr "Banner"); ("command", JStr "banner motd [text]") ])
    as [Hentry Hreturns].
  - left. reflexivity.
  - left. reflexivity.
  - split.
    + apply Hentry. vm_compute. reflexivity.
    + apply Hreturns.
      * repeat constructor; simpl; eauto.
      * intros cmd template key [<-|[]] Htemplate Hkey.
        injection Htemplate as <-.
        destruct Hkey as [<-|[]]. vm_compute. eauto.
Defined.

(** * Placeholder filling *)

Module FillFacts.
Import PyStr StrFacts.

#[local] Arguments Ascii.eqb : simpl never.

Lemma has_char_app c a b : has_char c (a +:+ b) = has_char c a || has_char c b.
Proof.
  induction a as [|x a IH]; [reflexivity|].
  rewrite app_cons. simpl. rewrite IH. apply orb_assoc.
Qed.

Lemma token_cons key : token key = String "[" (key +:+ "]").
Proof. reflexivity. Qed.

Lemma replace_go_S fuel old new s :
  replace_go (S fuel) old new s
  = match strip_prefix old s with
    | Some rest => new +:+ replace_go fuel old new rest
    | None =>
        match s with
        | "" => ""
        | String c r => String c (replace_go fuel old new r)
        end
    end.
Proof. reflexivity. Qed.

(** [String.length s] scanning steps are enough: more fuel gives the same
    result. *)
Lemma replace_go_enough a p new fuel1 fuel2 s :
  String.length s <= fuel1 -> String.length s <= fuel2 ->
  replace_go fuel1 (String a p) new s = replace_go fuel2 (String a p) new s.
Proof.
  revert fuel2 s. induction fuel1 as [|fuel1 IH]; intros fuel2 s H1 H2.
  - destruct s; [|simpl in H1; lia]. destruct fuel2; reflexivity.
  - destruct fuel2 as [|fuel2]; [destruct s; [reflexivity|simpl in H2; lia]|].
    rewrite !replace_go_S.
    destruct (strip_prefix (String a p) s) as [rest|] eqn:E.
    + apply strip_prefix_Some in E. subst s.
      rewrite app_length in H1, H2. simpl in H1, H2.
      f_equal. apply IH; lia.
    + destruct s as [|c r]; [reflexivity|]. simpl in H1, H2.
      f_equal. apply IH; lia.
Qed.

(** Replacing a text by itself changes nothing. *)
Lemma replace_go_same fuel old s : replace_go fuel old old s = s.
Proof.
  revert s. induction fuel as [|fuel IH]; intros s; [reflexivity|].
  simpl. destruct (strip_prefix old s) as [rest|] eqn:E.
  - rewrite IH. symmetry. apply strip_prefix_Some, E.
  - destruct s as [|c r]; [reflexivity|]. rewrite IH. reflexivity.
Qed.

Lemma replace_token_same key s : replace (token key) (token key) s = s.
Proof. rewrite token_cons. apply replace_go_same. Qed.

(** A text without opening bracket is copied as it is: no occurrence of a
    bracket token starts in it. *)
Lemma replace_go_skip fuel key new u w :
  has_char "[" u = false ->
  replace_go fuel (token key) new (u +:+ w)
  = u +:+ replace_go (fuel - String.length u) (token key) new w.
Proof.
  revert fuel. induction u as [|c u IH]; intros fuel Hu.
  - rewrite Nat.sub_0_r. reflexivity.
  - simpl in Hu. apply orb_false_iff in Hu as [Hc Hu].
    destruct fuel as [|fuel]; [reflexivity|].
    rewrite app_cons, token_cons. simpl.
    rewrite Ascii.eqb_sym, Hc. rewrite <- token_cons, IH by exact Hu. reflexivity.
Qed.

Lemma contains_skip t u w :
  has_char "[" u = false ->
  contains (String "[" t) (u +:+ w) = contains (String "[" t) w.
Proof.
  induction u as [|c u IH]; intros Hu; [reflexivity|].
  simpl in Hu. apply orb_false_iff in Hu as [Hc Hu].
  rewrite app_cons, contains_unfold, IH by exact Hu.
  unfold starts_with. simpl. rewrite Ascii.eqb_sym, Hc. reflexivity.
Qed.

(** Two bracket tokens that start at the same place are the same token. *)
Lemma key_prefix_eq ka kb rest r :
  has_char "]" ka = false -> has_char "]" kb = false ->
  strip_prefix (ka +:+ "]") ((kb +:+ "]") +:+ rest) = Some r -> ka = kb.
Proof.
  revert kb. induction ka as [|a ka IH]; intros [|b kb] Ha Hb H.
  - reflexivity.
  - simpl in Hb. apply orb_false_iff in Hb as [Hb _].
    rewrite !app_cons in H. simpl in H.
    rewrite Ascii.eqb_sym, Hb in H. discriminate.
  - simpl in Ha. apply orb_false_iff in Ha as [Ha _].
    rewrite !app_cons in H. simpl in H. rewrite Ha in H. discriminate.
  - simpl in Ha, Hb.
    apply orb_false_iff in Ha as [_ Ha]. apply orb_false_iff in Hb as [_ Hb].
    rewrite !app_cons in H. simpl in H.
    destruct (Ascii.eqb_spec a b) as [->|]; [|discriminate].
    f_equal. apply (IH kb Ha Hb H).
Qed.

Lemma token_not_at_other_token ka kb rest :
  has_char "]" ka = false -> has_char "]" kb = false -> ka <> kb ->
  starts_with (token ka) (token kb +:+ rest) = false.
Proof.
  intros Ha Hb Hne. unfold starts_with.
  destruct (strip_prefix (token ka) (token kb +:+ rest)) as [r|] eqn:E; [|reflexivity].
  exfalso. apply Hne. rewrite !token_cons, app_cons in E. simpl in E.
  apply (key_prefix_eq ka kb rest r Ha Hb E).
Qed.

(** Replacing the occurrences of one bracket token leaves the occurrences
    of another one in place, whatever the replacement text is. *)
Lemma replace_go_keeps_token fuel ka kb new s :
  has_char "[" ka = false -> has_char "]" ka = false ->
  has_char "[" kb = false -> has_char "]" kb = false ->
  ka <> kb ->
  contains (token ka) s = true ->
  contains (token ka) (replace_go fuel (token kb) new s) = true.
Proof.
  intros Ha1 Ha2 Hb1 Hb2 Hne. revert s.
  induction fuel as [|fuel IH]; intros s Hs; [exact Hs|].
  rewrite replace_go_S. destruct (strip_prefix (token kb) s) as [rest|] eqn:E.
  - apply strip_prefix_Some in E. subst s.
    apply contains_app_r, IH.
    rewrite contains_unfold, token_not_at_other_token in Hs by assumption.
    rewrite (token_cons kb), app_cons in Hs. simpl in Hs.
    rewrite (token_cons ka), contains_skip in Hs; [exact Hs|].
    rewrite has_char_app, Hb1. reflexivity.
  - destruct s as [|c r]; [discriminate Hs|].
    rewrite contains_unfold in Hs. apply orb_true_iff in Hs as [Hs|Hs].
    + apply starts_with_true in Hs as [b Hb].
      rewrite token_cons, app_cons in Hb. injection Hb as -> ->.
      rewrite replace_go_skip by (rewrite has_char_app, Ha1; reflexivity).
      rewrite <- app_cons, <- token_cons.
      apply (contains_intro "" (token ka)).
    + rewrite contains_unfold, (IH r Hs). apply orb_true_r.
Qed.

Lemma replace_keeps_token ka kb new s :
  has_char "[" ka = false -> has_char "]" ka = false ->
  has_char "[" kb = false -> has_char "]" kb = false ->
  ka <> kb ->
  contains (token ka) s = true ->
  contains (token ka) (replace (token kb) new s) = true.
Proof. rewrite (token_cons kb). apply replace_go_keeps_token. Qed.

Lemma replace_go_empty fuel key new : replace_go fuel (token key) new "" = "".
Proof. destruct fuel; reflexivity. Qed.

(** The one occurrence of a bracket token between two bracket-free texts
    is replaced. *)
Lemma replace_single key new pre post :
  has_char "[" pre = false -> has_char "[" post = false ->
  replace (token key) new (pre +:+ token key +:+ post) = pre +:+ new +:+ post.
Proof.
  intros Hpre Hpost. rewrite (token_cons key) at 1. unfold replace.
  rewrite <- token_cons, replace_go_skip by exact Hpre. f_equal.
  rewrite app_length, Nat.add_comm, Nat.add_sub.
  rewrite token_cons at 1. rewrite (app_cons "[" (key +:+ "]") post). simpl String.length.
  rewrite replace_go_S, strip_prefix_app. f_equal.
  rewrite <- (app_nil_r post) at 2.
  rewrite replace_go_skip, replace_go_empty by exact Hpost. apply app_nil_r.
Qed.

(** ** What [re.findall] returns *)

Lemma lazy_close_Some s key rest :
  Re.lazy_close s = Some (key, rest) ->
  s = (key +:+ "]") +:+ rest
  /\ has_char "]" key = false /\ has_char "010" key = false.
Proof.
  revert key. induction s as [|c s IH]; intros key H; simpl in H; [discriminate|].
  destruct (Ascii.eqb_spec c "]") as [->|Hc].
  - injection H as <- <-. repeat split.
  - destruct (Ascii.eqb_spec c "010") as [->|Hn]; [discriminate|].
    destruct (Re.lazy_close s) as [[k r]|]; [|discriminate].
    injection H as <- <-.
    destruct (IH k eq_refl) as (-> & H1 & H2).
    rewrite !app_cons. simpl.
    apply Ascii.eqb_neq in Hc, Hn. rewrite Hc, Hn. repeat split; assumption.
Qed.

Lemma lazy_close_intro key rest :
  has_char "]" key = false -> has_char "010" key = false ->
  Re.lazy_close ((key +:+ "]") +:+ rest) = Some (key, rest).
Proof.
  induction key as [|c key IH]; intros H1 H2; [reflexivity|].
  simpl in H1, H2.
  apply orb_false_iff in H1 as [Hc H1]. apply orb_false_iff in H2 as [Hn H2].
  rewrite !app_cons. simpl. rewrite Hc, Hn, IH by assumption. reflexivity.
Qed.

Lemma findall_go_enough fuel1 fuel2 s :
  String.length s <= fuel1 -> String.length s <= fuel2 ->
  Re.findall_go fuel1 s = Re.findall_go fuel2 s.
Proof.
  revert fuel2 s. induction fuel1 as [|fuel1 IH]; intros fuel2 s H1 H2.
  - destruct s; [|simpl in H1; lia]. destruct fuel2; reflexivity.
  - destruct fuel2 as [|fuel2]; [destruct s; [reflexivity|simpl in H2; lia]|].
    destruct s as [|c r]; [reflexivity|]. simpl in H1, H2. simpl.
    destruct (Ascii.eqb c "["); [|apply IH; lia].
    destruct (Re.lazy_close r) as [[key rest]|] eqn:E; [|apply IH; lia].
    apply lazy_close_Some in E as (-> & _ & _).
    rewrite !app_length in H1, H2. f_equal. apply IH; lia.
Qed.

Lemma findall_go_In fuel s key :
  In key (Re.findall_go fuel s) ->
  has_char "]" key = false /\ has_char "010" key = false
  /\ contains (token key) s = true.
Proof.
  revert s. induction fuel as [|fuel IH]; intros s Hin; [destruct Hin|].
  destruct s as [|c r]; [destruct Hin|]. simpl in Hin.
  assert (Hlater : forall r', r = r' \/ (exists u, r = u +:+ r') ->
                   In key (Re.findall_go fuel r') ->
                   has_char "]" key = false /\ has_char "010" key = false
                   /\ contains (token key) (String c r) = true).
  { intros r' Hr Hk. destruct (IH r' Hk) as (H1 & H2 & H3).
    repeat split; try assumption.
    rewrite contains_unfold. apply orb_true_iff. right.
    destruct Hr as [->|[u ->]]; [exact H3|apply contains_app_r, H3]. }
  destruct (Ascii.eqb_spec c "[") as [->|Hc]; [|apply (Hlater r); auto].
  destruct (Re.lazy_close r) as [[k rest]|] eqn:E; [|apply (Hlater r); auto].
  destruct (lazy_close_Some r k rest E) as (Hr & H1 & H2).
  destruct Hin as [<-|Hin]; [|apply (Hlater rest); eauto].
  repeat split; try assumption. subst r.
  rewrite <- app_cons, <- token_cons. apply (contains_intro "" (token k)).
Qed.

(** Every key [re.findall] returns is free of closing brackets and its
    bracket token occurs in the template. *)
Lemma findall_brackets_In template key :
  In key (Re.findall_brackets template) ->
  has_char "]" key = false /\ contains (token key) template = true.
Proof.
  intros Hin. destruct (findall_go_In _ _ _ Hin) as (H1 & _ & H3). split; assumption.
Qed.

Lemma findall_go_skip fuel u w :
  has_char "[" u = false ->
  Re.findall_go fuel (u +:+ w) = Re.findall_go (fuel - String.length u) w.
Proof.
  revert fuel. induction u as [|c u IH]; intros fuel Hu.
  - rewrite Nat.sub_0_r. reflexivity.
  - simpl in Hu. apply orb_false_iff in Hu as [Hc Hu].
    destruct fuel as [|fuel]; [reflexivity|].
    rewrite app_cons. simpl. rewrite Hc. apply IH, Hu.
Qed.

Lemma findall_go_none fuel u : has_char "[" u = false -> Re.findall_go fuel u = [].
Proof.
  intros Hu. rewrite <- (app_nil_r u), findall_go_skip by exact Hu.
  destruct (fuel - String.length u); reflexivity.
Qed.

Lemma findall_single pre key post :
  has_char "[" pre = false -> has_char "[" post = false ->
  has_char "]" key = false -> has_char "010" key = false ->
  Re.findall_brackets (pre +:+ token key +:+ post) = [key].
Proof.
  intros Hpre Hpost H1 H2. unfold Re.findall_brackets.
  rewrite findall_go_skip by exact Hpre.
  rewrite app_length, Nat.add_comm, Nat.add_sub.
  rewrite token_cons, app_cons. simpl.
  rewrite lazy_close_intro, findall_go_none by assumption. reflexivity.
Qed.

End FillFacts.

Section Placeholders.
Import PyStr StrFacts FillFacts.

Variable re_search : string -> string -> result (option string).

Local Abbreviation fill_one' := (fill_one re_search).
Local Abbreviation fill_keys' := (fill_keys re_search).
Local Abbreviation fill_template' := (fill_template re_search).

Lemma fill_one_found query key filled span :
  re_search (replace "_" " " key) query = Ok (Some span) ->
  fill_one' query key filled = Ok (replace (token key) span filled).
Proof. intros H. unfold fill_one. rewrite H. reflexivity. Qed.

Lemma fill_one_not_found query key filled :
  re_search (replace "_" " " key) query = Ok None ->
  fill_one' query key filled = Ok filled.
Proof.
  intros H. unfold fill_one. rewrite H, bind_ret, replace_token_same. reflexivity.
Qed.

(** The loop invariant: the token of an unmatched key survives every
    iteration. *)
Lemma fill_keys_keeps_token query keys filled out key :
  fill_keys' query keys filled = Ok out ->
  Forall (fun k => has_char "[" k = false /\ has_char "]" k = false) keys ->
  has_char "[" key = false -> has_char "]" key = false ->
  re_search (replace "_" " " key) query = Ok None ->
  contains (token key) filled = true ->
  contains (token key) out = true.
Proof.
  intros Hrun Hkeys Hk1 Hk2 Hnone. revert filled Hrun.
  induction Hkeys as [|k keys [Hb1 Hb2] _ IH]; intros filled Hrun Hin.
  - injection Hrun as <-. exact Hin.
  - simpl in Hrun. apply bind_Ok in Hrun as (filled' & Hstep & Hrun).
    apply (IH filled' Hrun).
    destruct (String.eqb_spec k key) as [->|Hne].
    + rewrite fill_one_not_found in Hstep by exact Hnone.
      injection Hstep as <-. exact Hin.
    + unfold fill_one in Hstep.
      apply bind_Ok in Hstep as (guess & _ & Hstep). injection Hstep as <-.
      apply replace_keeps_token; try assumption. congruence.
Qed.

(** C7 (as amended).  When no placeholder key of a template contains an
    opening bracket, every bracket token of the template whose pattern
    (the key with underscores turned into spaces) is not found in the
    query is still literally present in the filled template.  When the
    pattern of a key is found, the loop replaces the occurrences of its
    bracket token in the text filled so far by the matched span; for a
    template with a single bracket token the filled template is the
    template with that token replaced by the span. *)
Theorem unmatched_placeholders_stay query template :
  (forall out,
     fill_template' query template = Ok out ->
     Forall (fun k => has_char "[" k = false) (Re.findall_brackets template) ->
     forall key,
       In key (Re.findall_brackets template) ->
       re_search (replace "_" " " key) query = Ok None ->
       contains ("[" +:+ key +:+ "]") out = true)
  /\ (forall key filled span,
        re_search (replace "_" " " key) query = Ok (Some span) ->
        fill_one' query key filled
        = Ok (replace ("[" +:+ key +:+ "]") span filled))
  /\ (forall pre key post span,
        template = pre +:+ ("[" +:+ key +:+ "]") +:+ post ->
        has_char "[" pre = false -> has_char "[" post = false ->
        has_char "]" key = false -> has_char "010" key = false ->
        re_search (replace "_" " " key) query = Ok (Some span) ->
        fill_template' query template = Ok (pre +:+ span +:+ post)).
Proof.
  split; [|split].
  - intros out Hrun Hopen key Hin Hnone.
    destruct (findall_brackets_In template key Hin) as [Hclose Htok].
    apply (fill_keys_keeps_token query (Re.findall_brackets template) template);
      try assumption.
    + apply List.Forall_forall. intros k Hk. split.
      * exact (proj1 (List.Forall_forall _ _) Hopen k Hk).
      * apply (findall_brackets_In template k Hk).
    + exact (proj1 (List.Forall_forall _ _) Hopen key Hin).
  - intros key filled span Hfound. apply fill_one_found, Hfound.
  - intros pre key post span -> Hpre Hpost H1 H2 Hfound.
    change (pre +:+ ("[" +:+ key +:+ "]") +:+ post)
      with (pre +:+ token key +:+ post).
    unfold fill_template. rewrite findall_single by assumption.
    simpl. rewrite fill_one_found with (span := span) by exact Hfound.
    rewrite bind_ret, replace_single by assumption. reflexivity.
Qed.

End Placeholders.

(** The template [[p\[q] [q]] has the keys [p\[q] and [q].  On the query
    "set q" the pattern of the first key matches nowhere, the second one
    matches; replacing the token of the second key also rewrites the tail
    of the first token, which is then no longer present in the synthesized
    command. *)
Lemma unmatched_placeholder_counterexample :
  Re.findall_brackets "[p\[q] [q]" = ["p\[q"; "q"]
  /\ Re.search (PyStr.replace "_" " " "p\[q") "set q" = Ok None
  /\ Re.search (PyStr.replace "_" " " "q") "set q" = Ok (Some "q")
  /\ fill_template Re.search "set q" "[p\[q] [q]" = Ok "[p\q q"
  /\ PyStr.contains "[p\[q]" "[p\q q" = false
  /\ handle_scenario Re.search
       [ [ ("name", JStr "Q"); ("command", JStr "[p\[q] [q]") ] ] "set q"
     = Ok (scenario_header +:+ "Q" +:+ PyStr.nl +:+ "[p\q q").
Proof. vm_compute. repeat split. Qed.

Lemma unmatched_placeholders_stay_witness :
  PyStr.contains "[interface]" "ip address ip address on [interface]" = true
  /\ fill_template Re.search "set ip address on port 1" "ssh enable on [ip_address] now"
     = Ok "ssh enable on ip address now".
Proof.
  destruct (unmatched_placeholders_stay Re.search "set ip address on port 1"
              "ip address [ip_address] on [interface]") as (Hstay & _ & _).
  destruct (unmatched_placeholders_stay Re.search "set ip address on port 1"
              "ssh enable on [ip_address] now") as (_ & _ & Hsingle).
  split.
  - apply (fun H1 H2 H3 H4 =>
             Hstay "ip address ip address on [interface]" H1 H2 "interface" H3 H4).
    + vm_compute. reflexivity.
    + vm_compute. repeat constructor.
    + vm_compute. right. left. reflexivity.
    + vm_compute. reflexivity.
  - apply (Hsingle "ssh enable on " "ip_address" " now" "ip address");
      reflexivity.
Defined.


(** * Further properties of the request handler *)

Section Handler.
Import PyStr StrFacts.

Variable dataset : json.
Variable similarity_search : faiss -> string -> nat -> list string.
Variable get_preview : string -> string.
Variable re_search : string -> string -> result (option string).

Local Abbreviation query_faiss' :=
  (query_faiss dataset similarity_search get_preview re_search).
Local Abbreviation features_or_default' :=
  (features_or_default dataset similarity_search).
Local Abbreviation default_retrieval' := (default_retrieval similarity_search).

Lemma single_Ok r results : single r = Ok results -> exists s, results = [s].
Proof.
  unfold single. intros H. apply bind_Ok in H as (s & _ & H).
  injection H as <-. exists s. reflexivity.
Qed.

(** What rules 5 and 6 do to [user_contexts]: the caller's slot is set,
    once or twice, and nothing else. *)
Lemma features_or_default_contexts e user_query user_id (ctx : gmap string string) :
  exists first,
    snd (features_or_default' e user_query user_id ctx) = <[user_id := first]> ctx.
Proof.
  unfold features_or_default.
  destruct (default_retrieval_cases similarity_search e user_query user_id ctx)
    as (f0 & r0 & _ & Hdef0).
  destruct (contains "features" user_query); [|exists f0; rewrite Hdef0; reflexivity].
  destruct (detect_vendors_cases user_query user_id ctx) as (first & rest & Hd & _).
  rewrite Hd.
  destruct (contains "security" user_query); [exists first; reflexivity|].
  destruct (contains "setup" user_query); [exists first; reflexivity|].
  destruct (default_retrieval_cases similarity_search e user_query user_id
              (<[user_id := first]> ctx)) as (f2 & r2 & _ & Hdef2).
  exists f2. rewrite Hdef2. simpl. apply insert_insert_eq.
Qed.

Lemma features_or_default_nonempty e user_query user_id (ctx : gmap string string)
    results ctx' :
  features_or_default' e user_query user_id ctx = (Ok results, ctx') ->
  results <> [].
Proof.
  unfold features_or_default. intros H.
  assert (Hdef : forall c, default_retrieval' e user_query user_id c = (Ok results, ctx') ->
                           results <> []).
  { intros c Hc.
    destruct (default_retrieval_cases similarity_search e user_query user_id c)
      as (f & r & _ & Hd).
    rewrite Hd in Hc. injection Hc as <- _. apply retrieval_response_nonempty. }
  destruct (contains "features" user_query); [|apply (Hdef ctx H)].
  destruct (detect_vendors user_query user_id ctx) as [[vs|x] c1]; [|discriminate].
  destruct (contains "security" user_query).
  { injection H as H _. apply single_Ok in H as [s ->]. discriminate. }
  destruct (contains "setup" user_query).
  { injection H as H _. apply single_Ok in H as [s ->]. discriminate. }
  apply (Hdef c1 H).
Qed.

(** X1.  A request changes at most the caller's own remembered vendor:
    the slot of every other user is left as it was. *)
Theorem query_faiss_keeps_other_users e data (ctx : gmap string string) other :
  other <> user_of data ->
  snd (query_faiss' e data ctx) !! other = ctx !! other.
Proof.
  intros Hother. unfold query_faiss.
  destruct (any_in irrelevant_keywords (normalize data)); [reflexivity|].
  destruct (any_in greetings (normalize data)); [reflexivity|].
  destruct (contains "preview" (normalize data) || contains "impact" (normalize data));
    [reflexivity|].
  destruct (any_in config_verbs (normalize data)); [reflexivity|].
  destruct (features_or_default_contexts e (normalize data) (user_of data) ctx)
    as [first ->].
  apply lookup_insert_ne. congruence.
Qed.

(** X2.  Whenever the handler returns, the ["results"] list of the
    response holds at least one string, on every path. *)
Theorem query_faiss_results_nonempty e data (ctx : gmap string string) results ctx' :
  query_faiss' e data ctx = (Ok results, ctx') ->
  results <> [].
Proof.
  unfold query_faiss. intros H.
  destruct (any_in irrelevant_keywords (normalize data));
    [injection H as <- _; discriminate|].
  destruct (any_in greetings (normalize data));
    [injection H as <- _; discriminate|].
  destruct (contains "preview" (normalize data) || contains "impact" (normalize data));
    [injection H as <- _; discriminate|].
  destruct (any_in config_verbs (normalize data)).
  { injection H as H _. apply single_Ok in H as [s ->]. discriminate. }
  apply (features_or_default_nonempty e _ _ _ _ _ H).
Qed.

(** X3.  The irrelevant-topic test is a substring test: a query that
    contains any text in which one of the keywords occurs ("password"
    holds "word", "update" holds "date") is rejected with the scope
    reminder, whatever else it asks, and nothing is remembered. *)
Theorem keyword_inside_a_word_rejects e data (ctx : gmap string string) word keyword :
  In keyword irrelevant_keywords ->
  contains keyword word = true ->
  contains word (normalize data) = true ->
  query_faiss' e data ctx = (Ok [scope_reminder], ctx).
Proof.
  intros Hk Hword Hq. unfold query_faiss.
  rewrite (any_in_intro keyword irrelevant_keywords (normalize data) Hk
             (contains_trans _ _ _ Hword Hq)).
  reflexivity.
Qed.

End Handler.

Lemma query_faiss_keeps_other_users_witness :
  snd (Sample.run "juniper security" (<["alice" := "Cisco"]> ∅)) !! "alice"
  = (<["alice" := "Cisco"]> ∅ : gmap string string) !! "alice".
Proof.
  apply (query_faiss_keeps_other_users Sample.dataset Sample.similarity_search
           Sample.get_preview Re.search Sample.e
           (Request (Some "juniper security") None)).
  discriminate.
Defined.

Lemma query_faiss_results_nonempty_witness :
  [nothing_found] <> [].
Proof.
  apply (query_faiss_results_nonempty Sample.dataset Sample.similarity_search
           Sample.get_preview Re.search Sample.e
           (Request (Some "juniper security") None) ∅ [nothing_found]
           (<["default_user" := "Juniper"]> ∅)).
  vm_compute. reflexivity.
Defined.

Lemma keyword_inside_a_word_rejects_witness :
  Sample.run "Cisco password security" ∅ = (Ok [scope_reminder], ∅).
Proof.
  apply (keyword_inside_a_word_rejects Sample.dataset Sample.similarity_search
           Sample.get_preview Re.search Sample.e
           (Request (Some "Cisco password security") None) ∅ "password" "word").
  - simpl. tauto.
  - reflexivity.
  - reflexivity.
Defined.

(** * Further properties of the vendor resolver *)

Section Resolver.
Import PyStr StrFacts.

Lemma aliases_in_spec user_query vendor :
  In vendor (aliases_in user_query)
  <-> exists alias, In (alias, vendor) vendor_mapping
                    /\ contains alias user_query = true.
Proof.
  unfold aliases_in. rewrite in_map_iff. split.
  - intros ([alias v] & <- & Hin). apply filter_In in Hin as [Hin Hc].
    exists alias. split; assumption.
  - intros (alias & Hin & Hc). exists (alias, vendor). split; [reflexivity|].
    apply filter_In. split; assumption.
Qed.

Lemma aliases_in_canonical user_query vendor :
  In vendor (aliases_in user_query) -> In vendor (map snd vendor_mapping).
Proof.
  intros H. apply aliases_in_spec in H as (alias & Hin & _).
  apply (in_map snd) in Hin. exact Hin.
Qed.

Lemma filter_length_le {A : Type} (f : A -> bool) (l : list A) :
  length (List.filter f l) <= length l.
Proof. induction l as [|x l IH]; simpl; [lia|]. destruct (f x); simpl; lia. Qed.

Lemma aliases_in_length user_query : length (aliases_in user_query) <= 5.
Proof.
  unfold aliases_in. rewrite length_map.
  apply (filter_length_le _ vendor_mapping).
Qed.

(** What [detect_vendors] returns, by cases. *)
Lemma detect_vendors_result user_query user_id (ctx : gmap string string) :
  exists resolved,
    fst (detect_vendors user_query user_id ctx) = Ok resolved
    /\ resolved
       = match aliases_in user_query, ctx !! user_id with
         | [], Some remembered => [remembered]
         | [], None => map snd vendor_mapping
         | explicit, _ => explicit
         end.
Proof.
  destruct (detect_vendors_cases user_query user_id ctx) as (first & rest & Hd & Hl).
  exists (first :: rest). rewrite Hd. split; [reflexivity|exact Hl].
Qed.

(** X4.  When every remembered vendor is one of the five display names,
    a detection returns between one and five vendors, all of them display
    names, and every remembered vendor still is a display name
    afterwards. *)
Theorem detect_vendors_keeps_canonical user_query user_id
    (ctx ctx' : gmap string string) resolved :
  canonical_contexts ctx ->
  detect_vendors user_query user_id ctx = (Ok resolved, ctx') ->
  (forall vendor, In vendor resolved ->
                  In vendor ["Cisco"; "Juniper"; "Palo Alto"; "Fortinet"; "F5"])
  /\ 1 <= length resolved <= 5
  /\ canonical_contexts ctx'.
Proof.
  intros Hcanon Hrun.
  destruct (detect_vendors_cases user_query user_id ctx) as (first & rest & Hd & Hl).
  rewrite Hd in Hrun. injection Hrun as <- <-.
  assert (Hnames : forall vendor, In vendor (first :: rest) ->
                                  In vendor (map snd vendor_mapping)).
  { intros vendor Hin. rewrite Hl in Hin.
    destruct (aliases_in user_query) as [|a l] eqn:Ha.
    - destruct (ctx !! user_id) as [r|] eqn:Hr; [|exact Hin].
      destruct Hin as [<-|[]]. apply (Hcanon user_id r Hr).
    - apply (aliases_in_canonical user_query). rewrite Ha. exact Hin. }
  split; [exact Hnames|]. split.
  - split; [simpl; lia|]. rewrite Hl.
    pose proof (aliases_in_length user_query) as Hlen.
    destruct (aliases_in user_query) as [|a l]; [|exact Hlen].
    destruct (ctx !! user_id); simpl; lia.
  - intros user vendor Hlookup.
    destruct (decide (user_id = user)) as [->|Hne].
    + rewrite lookup_insert_eq in Hlookup. injection Hlookup as <-.
      apply Hnames. left. reflexivity.
    + rewrite lookup_insert_ne in Hlookup by exact Hne.
      apply (Hcanon user vendor Hlookup).
Qed.

(** X5.  A vendor is explicitly mentioned exactly when one of its aliases
    is a substring of the query; as soon as one vendor is mentioned, the
    resolved list is the list of the mentioned vendors, whatever the user's
    remembered vendor is. *)
Theorem explicit_mention_overrides_memory user_query user_id
    (ctx : gmap string string) :
  (forall vendor,
     In vendor (aliases_in user_query)
     <-> exists alias, In (alias, vendor) vendor_mapping
                       /\ contains alias user_query = true)
  /\ (aliases_in user_query <> [] ->
      fst (detect_vendors user_query user_id ctx) = Ok (aliases_in user_query)).
Proof.
  split; [intros vendor; apply aliases_in_spec|].
  intros Hne.
  destruct (detect_vendors_result user_query user_id ctx) as (resolved & -> & ->).
  destruct (aliases_in user_query); [contradiction|reflexivity].
Qed.

End Resolver.

Lemma detect_vendors_keeps_canonical_witness :
  (forall vendor, In vendor ["Cisco"] ->
                  In vendor ["Cisco"; "Juniper"; "Palo Alto"; "Fortinet"; "F5"])
  /\ 1 <= length ["Cisco"] <= 5
  /\ canonical_contexts (<["bob" := "Cisco"]> (<["bob" := "Cisco"]> ∅)).
Proof.
  apply (detect_vendors_keeps_canonical "any hardening tips" "bob"
           (<["bob" := "Cisco"]> ∅)).
  - intros user vendor Hlookup.
    destruct (decide ("bob" = user)) as [<-|Hne].
    + rewrite lookup_insert_eq in Hlookup. injection Hlookup as <-. left. reflexivity.
    + rewrite lookup_insert_ne in Hlookup by exact Hne.
      rewrite lookup_empty in Hlookup. discriminate.
  - vm_compute. reflexivity.
Defined.

Lemma explicit_mention_overrides_memory_witness :
  fst (detect_vendors "compare fortinet with cisco" "bob" (<["bob" := "F5"]> ∅))
  = Ok ["Cisco"; "Fortinet"].
Proof.
  apply (proj2 (explicit_mention_overrides_memory "compare fortinet with cisco"
                  "bob" (<["bob" := "F5"]> ∅))).
  vm_compute. discriminate.
Defined.

(** * Further properties of the retrieval paths *)

Section RetrievalBounds.
Import PyStr StrFacts.

Variable dataset : json.
Variable similarity_search : faiss -> string -> nat -> list string.
Variable get_preview : string -> string.
Variable re_search : string -> string -> result (option string).

Local Abbreviation query_faiss' :=
  (query_faiss dataset similarity_search get_preview re_search).
Local Abbreviation search_vendor' := (search_vendor similarity_search).

Lemma search_vendor_length e is_setup user_query vendor :
  honours_k similarity_search ->
  length (search_vendor' e is_setup user_query vendor) <= 5.
Proof.
  intros Hk. unfold search_vendor.
  destruct (store_get _ vendor) as [index|]; [apply Hk|simpl; lia].
Qed.

Lemma flat_map_length_le {A B : Type} (f : A -> list B) (l : list A) n :
  (forall x, length (f x) <= n) -> length (flat_map f l) <= n * length l.
Proof.
  intros Hf. induction l as [|x l IH]; simpl; [lia|].
  rewrite length_app. pose proof (Hf x). lia.
Qed.

Lemma resolved_length user_query user_id (ctx : gmap string string) resolved ctx' :
  detect_vendors user_query user_id ctx = (Ok resolved, ctx') ->
  length resolved <= 5.
Proof.
  intros Hrun.
  destruct (detect_vendors_cases user_query user_id ctx) as (first & rest & Hd & Hl).
  rewrite Hd in Hrun. injection Hrun as <- _. rewrite Hl.
  pose proof (aliases_in_length user_query) as Hlen.
  destruct (aliases_in user_query) as [|a l]; [|exact Hlen].
  destruct (ctx !! user_id); simpl; lia.
Qed.

Lemma default_retrieval_length e user_query user_id (ctx : gmap string string)
    results ctx' :
  honours_k similarity_search ->
  default_retrieval similarity_search e user_query user_id ctx = (Ok results, ctx') ->
  length results <= 25.
Proof.
  intros Hk Hrun. unfold default_retrieval in Hrun.
  destruct (detect_vendors user_query user_id ctx) as [[vs|x] c] eqn:Hd;
    [|discriminate].
  injection Hrun as <- _.
  pose proof (resolved_length _ _ _ _ _ Hd) as Hvs.
  pose proof (flat_map_length_le
                (search_vendor' e (contains "setup" user_query
                                   || contains "configure" user_query) user_query)
                vs 5 (fun v => search_vendor_length e _ user_query v Hk)) as Hall.
  unfold retrieval_response. destruct (flat_map _ vs); simpl in *; lia.
Qed.

(** X6.  When the external search returns at most [k] documents, a
    response never holds more than 25 result strings: five per resolved
    vendor, for at most five vendors. *)
Theorem query_faiss_results_bounded e data (ctx : gmap string string) results ctx' :
  honours_k similarity_search ->
  query_faiss' e data ctx = (Ok results, ctx') ->
  length results <= 25.
Proof.
  intros Hk H. unfold query_faiss in H.
  destruct (any_in irrelevant_keywords (normalize data));
    [injection H as <- _; simpl; lia|].
  destruct (any_in greetings (normalize data));
    [injection H as <- _; simpl; lia|].
  destruct (contains "preview" (normalize data) || contains "impact" (normalize data));
    [injection H as <- _; simpl; lia|].
  destruct (any_in config_verbs (normalize data)).
  { injection H as H _. apply single_Ok in H as [s ->]. simpl. lia. }
  unfold features_or_default in H.
  destruct (contains "features" (normalize data));
    [|apply (default_retrieval_length _ _ _ _ _ _ Hk H)].
  destruct (detect_vendors (normalize data) (user_of data) ctx) as [[vs|x] c1];
    [|discriminate].
  destruct (contains "security" (normalize data)).
  { injection H as H _. apply single_Ok in H as [s ->]. simpl. lia. }
  destruct (contains "setup" (normalize data)).
  { injection H as H _. apply single_Ok in H as [s ->]. simpl. lia. }
  apply (default_retrieval_length _ _ _ _ _ _ Hk H).
Qed.


End RetrievalBounds.

Lemma query_faiss_results_bounded_witness :
  length [Sample.ssh_document] <= 25.
Proof.
  apply (query_faiss_results_bounded Sample.dataset Sample.similarity_search
           Sample.get_preview Re.search Sample.e
           (Request (Some "cisco hardening") None) ∅ [Sample.ssh_document]
           (<["default_user" := "Cisco"]> ∅)).
  - intros index q k. unfold Sample.similarity_search. apply firstn_le_length.
  - vm_compute. reflexivity.
Defined.


(** * Further properties of the tree flattener and the index store *)

Section ForEachMore.
Context {A B : Type}.

Lemma for_each_elem (f : A -> result (list B)) (xs : list A) (ys : list B) (y : B) :
  for_each f xs = Ok ys -> In y ys ->
  exists x zs, In x xs /\ f x = Ok zs /\ In y zs.
Proof.
  revert ys. induction xs as [|a xs IH]; intros ys Hrun Hin.
  - injection Hrun as <-. destruct Hin.
  - simpl in Hrun.
    apply bind_Ok in Hrun as (here & Hhere & Hrun).
    apply bind_Ok in Hrun as (more & Hmore & Hrun).
    injection Hrun as <-. apply in_app_or in Hin as [Hin|Hin].
    + exists a, here. split; [left; reflexivity|]. split; assumption.
    + destruct (IH more Hmore Hin) as (x & zs & Hx & Hfx & Hzs).
      exists x, zs. split; [right; exact Hx|]. split; assumption.
Qed.

Lemma for_each_raises (f : A -> result (list B)) (pre post : list A) (x : A) err :
  (forall p, In p pre -> exists ys, f p = Ok ys) ->
  f x = Raise err ->
  for_each f (pre ++ x :: post) = Raise err.
Proof.
  intros Hpre Hx. induction pre as [|p pre IH]; simpl.
  - rewrite Hx. reflexivity.
  - destruct (Hpre p) as [ys ->]; [left; reflexivity|].
    rewrite bind_ret, IH; [reflexivity|].
    intros q Hq. apply Hpre. right. exact Hq.
Qed.

End ForEachMore.

Section Tagging.
Import PyStr StrFacts.

Lemma tag_deeper vendor device_path key rest :
  tag vendor (device_path +:+ "/" +:+ key) rest
  = tag vendor device_path ("/" +:+ key +:+ rest).
Proof. unfold tag. rewrite !app_assoc. reflexivity. Qed.

Lemma emit_setup_tagged vendor device_path cmd ems em :
  emit_setup vendor device_path cmd = Ok ems -> In em ems ->
  exists rest, em_text em = tag vendor device_path rest.
Proof.
  unfold emit_setup. destruct cmd as [| | | | |c]; try discriminate.
  intros H Hin.
  apply bind_Ok in H as (name & _ & H).
  apply bind_Ok in H as (description & _ & H).
  apply bind_Ok in H as (command & _ & H).
  injection H as <-. destruct Hin as [<-|[]]. eexists. reflexivity.
Qed.

Lemma emit_security_tagged vendor device_path level cmd ems em :
  emit_security vendor device_path level cmd = Ok ems -> In em ems ->
  exists rest, em_text em = tag vendor device_path rest.
Proof.
  unfold emit_security. destruct cmd as [| | | | |c]; try discriminate.
  intros H Hin.
  apply bind_Ok in H as (name & _ & H).
  apply bind_Ok in H as (description & _ & H).
  apply bind_Ok in H as (command & _ & H).
  apply bind_Ok in H as (recommendations & _ & H).
  injection H as <-. destruct Hin as [<-|[]]. eexists. reflexivity.
Qed.

Lemma collect_setup_tagged vendor device_path d ems em :
  collect_setup vendor device_path d = Ok ems -> In em ems ->
  exists rest, em_text em = tag vendor device_path rest.
Proof.
  unfold collect_setup. intros H Hin.
  destruct (PyDict.get "setup" d) as [v|];
    [|injection H as <-; destruct Hin].
  apply bind_Ok in H as (cmds & _ & H).
  destruct (for_each_elem _ _ _ _ H Hin) as (cmd & zs & _ & Hemit & Hzs).
  apply (emit_setup_tagged vendor device_path cmd zs em Hemit Hzs).
Qed.

Lemma collect_security_tagged vendor device_path d ems em :
  collect_security vendor device_path d = Ok ems -> In em ems ->
  exists rest, em_text em = tag vendor device_path rest.
Proof.
  unfold collect_security. intros H Hin.
  destruct (PyDict.get "security" d) as [v|];
    [|injection H as <-; destruct Hin].
  apply bind_Ok in H as (levels & _ & H).
  destruct (for_each_elem _ _ _ _ H Hin) as ([level cmds] & zs & _ & Hlevel & Hzs).
  apply bind_Ok in Hlevel as (cs & _ & Hlevel).
  destruct (for_each_elem _ _ _ _ Hlevel Hzs) as (cmd & zs' & _ & Hemit & Hzs').
  apply (emit_security_tagged vendor device_path level cmd zs' em Hemit Hzs').
Qed.

(** Every Document the walk of a subtree emits carries the vendor and a
    device path that extends the path the walk started from. *)
Lemma collect_features_tagged subtree :
  forall vendor device_path ems em,
    collect_features vendor subtree device_path = Ok ems -> In em ems ->
    exists rest, em_text em = tag vendor device_path rest.
Proof.
  induction subtree as [j Hleaf|d IH] using json_dict_ind;
    intros vendor device_path ems em Hrun Hin.
  - destruct j; try (injection Hrun as <-; destruct Hin).
    contradiction (Hleaf d). reflexivity.
  - simpl in Hrun.
    apply bind_Ok in Hrun as (s & Hs & Hrun).
    apply bind_Ok in Hrun as (t & Ht & Hrun).
    apply bind_Ok in Hrun as (r & Hr & Hrun).
    injection Hrun as <-.
    apply in_app_or in Hin as [Hin|Hin];
      [apply (collect_setup_tagged vendor device_path d s em Hs Hin)|].
    apply in_app_or in Hin as [Hin|Hin];
      [apply (collect_security_tagged vendor device_path d t em Ht Hin)|].
    destruct (for_each_elem _ _ _ _ Hr Hin) as ([key val] & zs & Hkv & Hbody & Hzs).
    destruct (is_vendor_name key); [injection Hbody as <-; destruct Hzs|].
    destruct (proj1 (List.Forall_forall _ _) IH (key, val) Hkv
                vendor _ zs em Hbody Hzs) as [rest Hrest].
    exists ("/" +:+ key +:+ rest). rewrite Hrest. apply tag_deeper.
Qed.

Lemma texts_of_In c ems text :
  In text (texts_of c ems) -> exists em, In em ems /\ em_text em = text.
Proof.
  unfold texts_of. rewrite in_map_iff. intros (em & <- & Hin).
  apply filter_In in Hin as [Hin _]. exists em. split; [exact Hin|reflexivity].
Qed.

Lemma docs_tagged_insert docs vendor c ems :
  docs_tagged docs ->
  (forall em, In em ems -> exists rest, em_text em = tag vendor vendor rest) ->
  docs_tagged (<[vendor := texts_of c ems]> docs).
Proof.
  intros Hdocs Hems v texts text Hlookup Hin.
  destruct (decide (vendor = v)) as [->|Hne].
  - rewrite lookup_insert_eq in Hlookup. injection Hlookup as <-.
    apply texts_of_In in Hin as (em & Hem & <-). apply Hems, Hem.
  - rewrite lookup_insert_ne in Hlookup by exact Hne.
    apply (Hdocs v texts text Hlookup Hin).
Qed.

Lemma build_docs_loop_tagged vendors acc docs :
  build_docs_loop vendors acc = Ok docs ->
  docs_tagged (setup_docs acc) -> docs_tagged (security_docs acc) ->
  docs_tagged (setup_docs docs) /\ docs_tagged (security_docs docs).
Proof.
  revert acc. induction vendors as [|[vendor devices] vendors IH];
    intros acc Hrun Hs Ht.
  - injection Hrun as <-. split; assumption.
  - simpl in Hrun. apply bind_Ok in Hrun as (ems & Hems & Hrun).
    apply (IH _ Hrun); simpl; apply docs_tagged_insert; try assumption;
      intros em Hem; apply (collect_features_tagged devices vendor vendor ems em Hems Hem).
Qed.

Lemma build_vendor_docs_tagged dataset docs :
  build_vendor_docs dataset = Ok docs ->
  docs_tagged (setup_docs docs) /\ docs_tagged (security_docs docs).
Proof.
  unfold build_vendor_docs. intros H.
  apply bind_Ok in H as (vs & _ & H). apply bind_Ok in H as (vendors & _ & H).
  apply (build_docs_loop_tagged vendors _ docs H);
    intros v texts text Hlookup; simpl in Hlookup;
    rewrite lookup_empty in Hlookup; discriminate.
Qed.

(** An index exists for a scope exactly when Documents exist for it, and
    it is built from exactly those. *)
Lemma store_get_index (docs : gmap string (list string)) vendor index :
  store_get (index_of <$> docs) vendor = Some index
  <-> docs !! vendor = Some (page_contents index) /\ page_contents index <> [].
Proof.
  unfold store_get. rewrite lookup_fmap.
  destruct (docs !! vendor) as [texts|]; simpl.
  - destruct texts as [|t texts]; simpl.
    + split; [discriminate|]. intros [H Hne]. injection H as H.
      contradiction Hne. symmetry. exact H.
    + split.
      * intros H. injection H as <-. split; [reflexivity|discriminate].
      * intros [H _]. injection H as H. destruct index as [pc]. simpl in H.
        rewrite H. reflexivity.
  - split; [discriminate|]. intros [H _]. discriminate.
Qed.

(** X8.  After startup, every page content of every index begins with
    the line "Vendor: " and the vendor the index belongs to, followed by
    the line "Device: " and a device path that starts with that vendor. *)
Theorem indexed_documents_carry_their_vendor dataset e vendor index text :
  build_faiss_indexes dataset = Ok e ->
  store_get (vendor_setup_stores e) vendor = Some index
  \/ store_get (vendor_security_stores e) vendor = Some index ->
  In text (page_contents index) ->
  exists rest,
    text = "Vendor: " +:+ vendor +:+ nl +:+ "Device: " +:+ vendor +:+ rest.
Proof.
  unfold build_faiss_indexes. intros H Hstore Hin.
  apply bind_Ok in H as (docs & Hdocs & H). injection H as <-. simpl in Hstore.
  destruct (build_vendor_docs_tagged dataset docs Hdocs) as [Hs Ht].
  destruct Hstore as [Hstore|Hstore]; apply store_get_index in Hstore as [Hlookup _].
  - apply (Hs vendor _ text Hlookup Hin).
  - apply (Ht vendor _ text Hlookup Hin).
Qed.

(** X9.  The converse of the absent index: a store holds an index for a
    vendor exactly when the walk produced a non-empty Document list for
    that vendor and category, and the index is built from exactly that
    list, in the order of the walk. *)
Theorem index_exists_iff_documents dataset docs e vendor index :
  build_vendor_docs dataset = Ok docs ->
  build_faiss_indexes dataset = Ok e ->
  (store_get (vendor_setup_stores e) vendor = Some index
   <-> setup_docs docs !! vendor = Some (page_contents index)
       /\ page_contents index <> [])
  /\ (store_get (vendor_security_stores e) vendor = Some index
      <-> security_docs docs !! vendor = Some (page_contents index)
          /\ page_contents index <> []).
Proof.
  intros Hdocs H. unfold build_faiss_indexes in H. rewrite Hdocs in H.
  injection H as <-. simpl. split; apply store_get_index.
Qed.

End Tagging.

Lemma indexed_documents_carry_their_vendor_witness :
  exists rest,
    Sample.ssh_document
    = "Vendor: " +:+ "Cisco" +:+ PyStr.nl +:+ "Device: " +:+ "Cisco" +:+ rest.
Proof.
  apply (indexed_documents_carry_their_vendor Sample.dataset Sample.e "Cisco"
           (Faiss [Sample.ssh_document])).
  - vm_compute. reflexivity.
  - right. vm_compute. reflexivity.
  - left. reflexivity.
Defined.

Lemma index_exists_iff_documents_witness :
  store_get (vendor_security_stores Sample.e) "Cisco"
  = Some (Faiss [Sample.ssh_document]).
Proof.
  destruct (build_vendor_docs Sample.dataset) as [docs|x] eqn:Hdocs;
    [|vm_compute in Hdocs; discriminate].
  apply (index_exists_iff_documents Sample.dataset docs Sample.e "Cisco"
           (Faiss [Sample.ssh_document]) Hdocs).
  - vm_compute. reflexivity.
  - vm_compute in Hdocs. injection Hdocs as <-. split; [|discriminate].
    vm_compute. reflexivity.
Defined.

Section StoreContents.
Import PyStr StrFacts.

Variable similarity_search : faiss -> string -> nat -> list string.

(** X10.  When the external search returns documents of the index it is
    run on, every result of the default retrieval (other than the fixed
    "nothing useful found" message) is a Document of one of the resolved
    vendors: its first line names that vendor. *)
Theorem retrieved_documents_belong_to_resolved_vendors dataset e
    user_query user_id (ctx ctx' : gmap string string) results :
  returns_indexed similarity_search ->
  build_faiss_indexes dataset = Ok e ->
  default_retrieval similarity_search e user_query user_id ctx = (Ok results, ctx') ->
  exists resolved,
    fst (detect_vendors user_query user_id ctx) = Ok resolved
    /\ forall text,
         In text results ->
         text = nothing_found
         \/ exists vendor rest,
              In vendor resolved
              /\ text = "Vendor: " +:+ vendor +:+ nl +:+ "Device: " +:+ vendor +:+ rest.
Proof.
  intros Hsearch Hbuild Hrun. unfold default_retrieval in Hrun.
  destruct (detect_vendors user_query user_id ctx) as [[resolved|x] c]; [|discriminate].
  injection Hrun as <- _. exists resolved. split; [reflexivity|].
  intros text Hin. unfold retrieval_response in Hin.
  destruct (flat_map _ resolved) as [|t ts] eqn:Hall.
  { destruct Hin as [<-|[]]. left. reflexivity. }
  right. rewrite <- Hall in Hin. apply in_flat_map in Hin as (vendor & Hv & Hin).
  exists vendor. unfold search_vendor in Hin.
  destruct (store_get _ vendor) as [index|] eqn:Hstore; [|destruct Hin].
  apply Hsearch in Hin.
  unfold build_faiss_indexes in Hbuild.
  apply bind_Ok in Hbuild as (docs & Hdocs & Hbuild). injection Hbuild as <-.
  destruct (build_vendor_docs_tagged dataset docs Hdocs) as [Hs Ht].
  simpl in Hstore.
  destruct (contains "setup" user_query || contains "configure" user_query);
    apply store_get_index in Hstore as [Hlookup _].
  - destruct (Hs vendor _ text Hlookup Hin) as [rest ->]. exists rest. split; [exact Hv|reflexivity].
  - destruct (Ht vendor _ text Hlookup Hin) as [rest ->]. exists rest. split; [exact Hv|reflexivity].
Qed.

Lemma build_docs_loop_keys vendors acc docs :
  build_docs_loop vendors acc = Ok docs ->
  forall v,
    (is_Some (setup_docs docs !! v)
     <-> is_Some (setup_docs acc !! v) \/ In v (map fst vendors))
    /\ (is_Some (security_docs docs !! v)
        <-> is_Some (security_docs acc !! v) \/ In v (map fst vendors)).
Proof.
  revert acc. induction vendors as [|[vendor devices] vendors IH]; intros acc Hrun v.
  - injection Hrun as <-. simpl. tauto.
  - simpl in Hrun. apply bind_Ok in Hrun as (ems & _ & Hrun).
    destruct (IH _ Hrun v) as [Hs Ht]. simpl in Hs, Ht.
    rewrite Hs, Ht. simpl.
    destruct (decide (vendor = v)) as [->|Hne].
    + rewrite !lookup_insert_eq. split; split; intros _; eauto.
    + rewrite !lookup_insert_ne by exact Hne. tauto.
Qed.

(** X11.  After startup both store maps have exactly the vendor keys of
    the knowledge tree as keys (with an index or with [None]): a vendor of
    the alias table that the tree does not have has no entry at all. *)
Theorem stores_cover_dataset_vendors dataset e :
  build_faiss_indexes dataset = Ok e ->
  exists vendors,
    py_subscript dataset "vendors" = Ok (JDict vendors)
    /\ forall vendor,
         (is_Some (vendor_setup_stores e !! vendor) <-> In vendor (map fst vendors))
         /\ (is_Some (vendor_security_stores e !! vendor)
             <-> In vendor (map fst vendors)).
Proof.
  unfold build_faiss_indexes, build_vendor_docs. intros H.
  apply bind_Ok in H as (docs & Hdocs & H). injection H as <-.
  apply bind_Ok in Hdocs as (vs & Hvs & Hdocs).
  apply bind_Ok in Hdocs as (vendors & Hitems & Hloop).
  destruct vs as [| | | | |d]; try discriminate. injection Hitems as ->.
  exists vendors. split; [exact Hvs|]. intros vendor. simpl.
  rewrite !lookup_fmap, !fmap_is_Some.
  destruct (build_docs_loop_keys vendors _ docs Hloop vendor) as [Hs Ht].
  simpl in Hs, Ht. rewrite lookup_empty in Hs, Ht.
  rewrite Hs, Ht. split; split; intros H; auto; destruct H as [H|H]; auto;
    destruct H; discriminate.
Qed.

End StoreContents.

Lemma retrieved_documents_belong_to_resolved_vendors_witness :
  exists resolved,
    fst (detect_vendors "cisco hardening" "default_user" ∅) = Ok resolved
    /\ forall text,
         In text [Sample.ssh_document] ->
         text = nothing_found
         \/ exists vendor rest,
              In vendor resolved
              /\ text = "Vendor: " +:+ vendor +:+ PyStr.nl +:+ "Device: " +:+ vendor
                        +:+ rest.
Proof.
  apply (retrieved_documents_belong_to_resolved_vendors Sample.similarity_search
           Sample.dataset Sample.e "cisco hardening" "default_user" ∅
           (<["default_user" := "Cisco"]> ∅)).
  - intros index q k text Hin. unfold Sample.similarity_search in Hin.
    rewrite <- (firstn_skipn k (page_contents index)).
    apply in_or_app. left. exact Hin.
  - vm_compute. reflexivity.
  - vm_compute. reflexivity.
Defined.

Lemma stores_cover_dataset_vendors_witness :
  exists vendors,
    py_subscript Sample.dataset "vendors" = Ok (JDict vendors)
    /\ forall vendor,
         (is_Some (vendor_setup_stores Sample.e !! vendor)
          <-> In vendor (map fst vendors))
         /\ (is_Some (vendor_security_stores Sample.e !! vendor)
             <-> In vendor (map fst vendors)).
Proof.
  apply (stores_cover_dataset_vendors Sample.dataset Sample.e).
  vm_compute. reflexivity.
Defined.

Section RegistryEntries.
Import PyStr StrFacts.

Lemma get_set_eq k v d : PyDict.get k (PyDict.set k v d) = Some v.
Proof.
  induction d as [|[k' v'] d IH]; simpl.
  - rewrite String.eqb_refl. reflexivity.
  - destruct (String.eqb_spec k k') as [->|Hne]; simpl.
    + rewrite String.eqb_refl. reflexivity.
    + destruct (String.eqb_spec k k'); [contradiction|exact IH].
Qed.

Lemma get_set_ne k k' v d :
  k <> k' -> PyDict.get k' (PyDict.set k v d) = PyDict.get k' d.
Proof.
  intros Hne. induction d as [|[k0 v0] d IH]; simpl.
  - destruct (String.eqb_spec k' k); [congruence|reflexivity].
  - destruct (String.eqb_spec k k0) as [->|Hk]; simpl.
    + destruct (String.eqb_spec k' k0); [congruence|reflexivity].
    + destruct (String.eqb_spec k' k0); [reflexivity|exact IH].
Qed.

Lemma get_absent k d : ~ In k (map fst d) -> PyDict.get k d = None.
Proof.
  induction d as [|[k' v'] d IH]; intros Hnot; [reflexivity|]. simpl.
  destruct (String.eqb_spec k k') as [->|_].
  - contradiction Hnot. left. reflexivity.
  - apply IH. intros Hin. apply Hnot. right. exact Hin.
Qed.

(** [{**base, **extra}]: the keys of [extra] win, the other keys of [base]
    stay. *)
Lemma get_merge base extra k :
  NoDup (map fst extra) ->
  PyDict.get k (PyDict.merge base extra)
  = match PyDict.get k extra with
    | Some v => Some v
    | None => PyDict.get k base
    end.
Proof.
  unfold PyDict.merge. revert base.
  induction extra as [|[k1 v1] extra IH]; intros base Hnd; [reflexivity|].
  simpl in Hnd. apply NoDup_cons in Hnd as [Hfresh Hnd].
  simpl. rewrite IH by exact Hnd.
  destruct (String.eqb_spec k k1) as [->|Hne].
  - rewrite get_absent, get_set_eq; [reflexivity|].
    intros Hin. apply Hfresh, list_elem_of_In, Hin.
  - rewrite get_set_ne by congruence. reflexivity.
Qed.

(** X12.  A registry entry holds every key of the command definition it
    was made from, with the definition's value; the tags "vendor", "type",
    "level" and "device" are present as well, unless the definition has a
    key of that name, which then wins. *)
Theorem command_definition_keys_win vendor device_path level c :
  NoDup (map fst c) ->
  (forall ems,
     emit_setup vendor device_path (JDict c) = Ok ems ->
     exists em,
       ems = [em] /\ em_category em = Setup
       /\ forall k,
            PyDict.get k (em_command em)
            = match PyDict.get k c with
              | Some v => Some v
              | None =>
                  PyDict.get k [ ("vendor", JStr vendor); ("type", JStr "setup");
                                 ("device", JStr device_path) ]
              end)
  /\ (forall ems,
        emit_security vendor device_path level (JDict c) = Ok ems ->
        exists em,
          ems = [em] /\ em_category em = Security
          /\ forall k,
               PyDict.get k (em_command em)
               = match PyDict.get k c with
                 | Some v => Some v
                 | None =>
                     PyDict.get k [ ("vendor", JStr vendor); ("type", JStr "security");
                                    ("level", JStr level);
                                    ("device", JStr device_path) ]
                 end).
Proof.
  intros Hnd. split; intros ems H.
  - unfold emit_setup in H.
    apply bind_Ok in H as (name & _ & H).
    apply bind_Ok in H as (description & _ & H).
    apply bind_Ok in H as (command & _ & H).
    injection H as <-. eexists. split; [reflexivity|]. split; [reflexivity|].
    intros k. apply get_merge, Hnd.
  - unfold emit_security in H.
    apply bind_Ok in H as (name & _ & H).
    apply bind_Ok in H as (description & _ & H).
    apply bind_Ok in H as (command & _ & H).
    apply bind_Ok in H as (recommendations & _ & H).
    injection H as <-. eexists. split; [reflexivity|]. split; [reflexivity|].
    intros k. apply get_merge, Hnd.
Qed.

Lemma for_each_app {A B : Type} (f : A -> result (list B)) (xs ys : list A) :
  for_each f (xs ++ ys)
  = do here <- for_each f xs; do more <- for_each f ys; Ok (here ++ more).
Proof.
  induction xs as [|x xs IH]; simpl.
  - destruct (for_each f ys); reflexivity.
  - destruct (f x) as [a|]; [|reflexivity]. rewrite !bind_ret, IH.
    destruct (for_each f xs) as [b|]; [|reflexivity]. rewrite !bind_ret.
    destruct (for_each f ys) as [c0|]; [|reflexivity]. rewrite !bind_ret.
    rewrite List.app_assoc. reflexivity.
Qed.

Lemma get_app_other k key x y (d1 d2 : pydict) :
  k <> key ->
  PyDict.get k (d1 ++ (key, x) :: d2) = PyDict.get k (d1 ++ (key, y) :: d2).
Proof.
  intros Hne. induction d1 as [|[k' v'] d1 IH]; simpl.
  - destruct (String.eqb_spec k key); [contradiction|reflexivity].
  - rewrite IH. reflexivity.
Qed.

(** X13.  Whatever a node stores under a key that is, in any letter case,
    a vendor display name is never looked at: replacing that value by any
    other one changes neither the emitted Commands and Documents nor the
    exception raised. *)
Theorem vendor_named_child_is_never_walked vendor device_path d1 key x y d2 :
  is_vendor_name key = true ->
  collect_features vendor (JDict (d1 ++ (key, x) :: d2)) device_path
  = collect_features vendor (JDict (d1 ++ (key, y) :: d2)) device_path.
Proof.
  intros Hkey.
  assert (Hsetup : "setup" <> key) by (intros <-; discriminate Hkey).
  assert (Hsec : "security" <> key) by (intros <-; discriminate Hkey).
  simpl. unfold collect_setup, collect_security.
  rewrite (get_app_other "setup" key x y d1 d2 Hsetup).
  rewrite (get_app_other "security" key x y d1 d2 Hsec).
  rewrite !for_each_app. simpl. rewrite Hkey. reflexivity.
Qed.

Lemma build_docs_loop_raises pre vendor devices post acc err :
  (forall p, In p pre ->
             exists ems, collect_features (fst p) (snd p) (fst p) = Ok ems) ->
  collect_features vendor devices vendor = Raise err ->
  build_docs_loop (pre ++ (vendor, devices) :: post) acc = Raise err.
Proof.
  intros Hpre Hbad. revert acc.
  induction pre as [|[v dv] pre IH]; intros acc; simpl.
  - rewrite Hbad. reflexivity.
  - destruct (Hpre (v, dv)) as [ems Hems]; [left; reflexivity|].
    simpl in Hems. rewrite Hems, bind_ret. apply IH.
    intros p Hp. apply Hpre. right. exact Hp.
Qed.

(** X14.  Startup fails as a whole: a knowledge tree that is not an
    object raises a type error, one without "vendors" a key error, one
    whose "vendors" is not an object an attribute error, and the first
    exception raised while walking a vendor's subtree is the outcome of
    [build_faiss_indexes], whatever the vendors after it hold. *)
Theorem startup_stops_at_the_first_exception :
  (forall dataset,
     (forall d, dataset <> JDict d) -> build_faiss_indexes dataset = Raise TypeError)
  /\ (forall d,
        PyDict.get "vendors" d = None ->
        build_faiss_indexes (JDict d) = Raise KeyError)
  /\ (forall d vs,
        PyDict.get "vendors" d = Some vs ->
        (forall vendors, vs <> JDict vendors) ->
        build_faiss_indexes (JDict d) = Raise AttributeError)
  /\ (forall d pre vendor devices post err,
        PyDict.get "vendors" d = Some (JDict (pre ++ (vendor, devices) :: post)) ->
        (forall p, In p pre ->
                   exists ems, collect_features (fst p) (snd p) (fst p) = Ok ems) ->
        collect_features vendor devices vendor = Raise err ->
        build_faiss_indexes (JDict d) = Raise err).
Proof.
  unfold build_faiss_indexes, build_vendor_docs.
  split; [|split; [|split]].
  - intros dataset Hnot. destruct dataset; try reflexivity.
    contradiction (Hnot d). reflexivity.
  - intros d Hget. simpl. unfold PyDict.item. rewrite Hget. reflexivity.
  - intros d vs Hget Hnot. simpl. unfold PyDict.item. rewrite Hget, bind_ret.
    destruct vs; try reflexivity. contradiction (Hnot d0). reflexivity.
  - intros d pre vendor devices post err Hget Hpre Hbad.
    simpl. unfold PyDict.item. rewrite Hget, !bind_ret. simpl py_items.
    rewrite bind_ret, (build_docs_loop_raises pre vendor devices post _ err Hpre Hbad).
    reflexivity.
Qed.

End RegistryEntries.

Lemma command_definition_keys_win_witness :
  exists em,
    emit_setup "Cisco" "Cisco/Router"
      (JDict [ ("name", JStr "Hostname"); ("device", JStr "my own") ]) = Ok [em]
    /\ PyDict.get "device" (em_command em) = Some (JStr "my own")
    /\ PyDict.get "vendor" (em_command em) = Some (JStr "Cisco")
    /\ PyDict.get "name" (em_command em) = Some (JStr "Hostname").
Proof.
  destruct (command_definition_keys_win "Cisco" "Cisco/Router" ""
              [ ("name", JStr "Hostname"); ("device", JStr "my own") ])
    as [Hsetup _].
  - apply (bool_decide_unpack _). vm_compute. reflexivity.
  - destruct (emit_setup "Cisco" "Cisco/Router"
                (JDict [ ("name", JStr "Hostname"); ("device", JStr "my own") ]))
      as [ems|x] eqn:Hems; [|vm_compute in Hems; discriminate].
    destruct (Hsetup ems eq_refl) as (em & -> & _ & Hkeys).
    exists em. split; [reflexivity|].
    rewrite !Hkeys. repeat split.
Defined.

Lemma vendor_named_child_is_never_walked_witness :
  collect_features "Cisco"
    (JDict ([ ("setup", JList [Sample.hostname]) ] ++ ("JUNIPER", JNum 7) :: []))
    "Cisco"
  = collect_features "Cisco"
      (JDict ([ ("setup", JList [Sample.hostname]) ]
              ++ ("JUNIPER", JDict [ ("setup", JList [JNull]) ]) :: []))
      "Cisco".
Proof.
  apply (vendor_named_child_is_never_walked "Cisco" "Cisco"
           [ ("setup", JList [Sample.hostname]) ] "JUNIPER").
  reflexivity.
Defined.

Lemma startup_stops_at_the_first_exception_witness :
  build_faiss_indexes (JList []) = Raise TypeError
  /\ build_faiss_indexes (JDict [ ("vendor", JDict []) ]) = Raise KeyError
  /\ build_faiss_indexes (JDict [ ("vendors", JList []) ]) = Raise AttributeError
  /\ build_faiss_indexes
       (JDict [ ("vendors",
                 JDict ([ ("Cisco", JDict [ ("setup", JList [Sample.hostname]) ]) ]
                        ++ ("Juniper", JDict [ ("setup", JList [JStr "hostname"]) ])
                        :: [ ("F5", JNull) ])) ])
     = Raise TypeError.
Proof.
  destruct startup_stops_at_the_first_exception as (H1 & H2 & H3 & H4).
  split; [apply H1; intros d; discriminate|].
  split; [apply H2; reflexivity|].
  split; [apply (H3 _ (JList [])); [reflexivity|intros vs; discriminate]|].
  apply (H4 _ [ ("Cisco", JDict [ ("setup", JList [Sample.hostname]) ]) ]
            "Juniper" (JDict [ ("setup", JList [JStr "hostname"]) ])
            [ ("F5", JNull) ]).
  - reflexivity.
  - intros p [<-|[]]. eexists. vm_compute. reflexivity.
  - vm_compute. reflexivity.
Defined.

(** * Further properties of the scenario synthesizer *)

Section ScenarioMore.
Import PyStr StrFacts FillFacts.

Variable re_search : string -> string -> result (option string).

Local Abbreviation handle_scenario' := (handle_scenario re_search).
Local Abbreviation scenario_entry' := (scenario_entry re_search).
Local Abbreviation fill_template' := (fill_template re_search).

(** X15.  When neither the name nor the description of any command of the
    registry occurs (lowercased) in the query, as for an empty registry,
    the synthesis answers with the fixed guidance text, and [re.search] is
    not called at all. *)
Theorem no_matching_command_gives_guidance cmds query :
  Forall (fun cmd =>
            exists name description,
              PyDict.get "name" cmd = Some (JStr name)
              /\ PyDict.get "description" cmd = Some (JStr description)
              /\ contains (lower name) query = false
              /\ contains (lower description) query = false) cmds ->
  handle_scenario' cmds query = Ok scenario_guidance.
Proof.
  intros Hcmds. unfold handle_scenario.
  rewrite for_each_nothing; [reflexivity|].
  intros cmd Hin.
  destruct (proj1 (List.Forall_forall _ _) Hcmds cmd Hin)
    as (name & description & Hname & Hdesc & Hn & Hd).
  unfold scenario_entry, PyDict.item. rewrite Hname, Hdesc, bind_ret.
  simpl. rewrite Hn, Hd. reflexivity.
Qed.

(** X16.  When [re.search] finds none of the placeholder patterns of a
    template in the query (in particular when the template has no bracket
    token), the synthesized command is the template itself, unchanged. *)
Theorem unfilled_template_is_verbatim query template :
  (forall key, In key (Re.findall_brackets template) ->
               re_search (replace "_" " " key) query = Ok None) ->
  fill_template' query template = Ok template.
Proof.
  unfold fill_template. generalize (Re.findall_brackets template) as keys.
  induction keys as [|key keys IH]; intros Hnone; [reflexivity|].
  simpl. rewrite (fill_one_not_found re_search query key template)
    by (apply Hnone; left; reflexivity).
  rewrite bind_ret. apply IH. intros k Hk. apply Hnone. right. exact Hk.
Qed.

(** X17.  Every placeholder key found in a template is free of closing
    brackets and of newlines, and the template holds the key between an
    opening and a closing bracket. *)
Theorem placeholder_keys_are_bracketed template key :
  In key (Re.findall_brackets template) ->
  has_char "]" key = false
  /\ has_char "010" key = false
  /\ exists before after, template = before +:+ ("[" +:+ key +:+ "]") +:+ after.
Proof.
  intros Hin. destruct (findall_go_In _ _ _ Hin) as (H1 & H2 & H3).
  split; [exact H1|]. split; [exact H2|]. apply contains_elim, H3.
Qed.

(** X18.  The matcher looks at the description only when the name does not
    occur in the query.  A command whose description is present but not a
    string (a JSON null, say) is matched by the queries that contain its
    name, and makes the synthesis raise an attribute error on every other
    query, wherever the command stands in the registry. *)
Theorem non_string_description_breaks_synthesis pre cmd post query name description :
  PyDict.get "name" cmd = Some (JStr name) ->
  PyDict.get "description" cmd = Some description ->
  (forall s, description <> JStr s) ->
  (contains (lower name) query = true ->
   any_term_in query [JStr name; description] = Ok true)
  /\ (contains (lower name) query = false ->
      (forall p, In p pre -> exists entries, scenario_entry' query p = Ok entries) ->
      handle_scenario' (pre ++ cmd :: post) query = Raise AttributeError).
Proof.
  intros Hname Hdesc Hnot. split.
  - intros Hn. simpl. rewrite Hn. reflexivity.
  - intros Hn Hpre. unfold handle_scenario.
    rewrite (for_each_raises (scenario_entry' query) pre post cmd AttributeError Hpre);
      [reflexivity|].
    unfold scenario_entry, PyDict.item. rewrite Hname, Hdesc, bind_ret.
    simpl. rewrite Hn.
    destruct description; try reflexivity. contradiction (Hnot s). reflexivity.
Qed.

End ScenarioMore.

Lemma no_matching_command_gives_guidance_witness :
  handle_scenario Re.search
    [ [ ("name", JStr "Enable SSH"); ("description", JStr "turn on secure shell");
        ("command", JStr "ssh enable on [interface]") ] ]
    "set the hostname"
  = Ok scenario_guidance.
Proof.
  apply (no_matching_command_gives_guidance Re.search).
  repeat constructor. exists "Enable SSH", "turn on secure shell". repeat split.
Defined.

Lemma unfilled_template_is_verbatim_witness :
  fill_template Re.search "please enable ssh on gigabit0" "ssh enable on [interface]"
  = Ok "ssh enable on [interface]".
Proof.
  apply (unfilled_template_is_verbatim Re.search).
  intros key [<-|[]]. reflexivity.
Defined.

Lemma placeholder_keys_are_bracketed_witness :
  PyStr.has_char "]" "ip_address" = false
  /\ PyStr.has_char "010" "ip_address" = false
  /\ exists before after,
       "ip address [ip_address] [mask]"
       = before +:+ ("[" +:+ "ip_address" +:+ "]") +:+ after.
Proof.
  apply (placeholder_keys_are_bracketed "ip address [ip_address] [mask]" "ip_address").
  left. reflexivity.
Defined.

Lemma non_string_description_breaks_synthesis_witness :
  any_term_in "enable ssh" [JStr "Enable SSH"; JNull] = Ok true
  /\ handle_scenario Re.search
       ([ [ ("name", JStr "Hostname"); ("description", JStr "name the device");
            ("command", JStr "hostname [name]") ] ]
        ++ [ ("name", JStr "Enable SSH"); ("description", JNull) ] :: [])
       "set the banner"
     = Raise AttributeError.
Proof.
  split.
  - apply (proj1 (non_string_description_breaks_synthesis Re.search [] 
                    [ ("name", JStr "Enable SSH"); ("description", JNull) ] []
                    "enable ssh" "Enable SSH" JNull eq_refl eq_refl
                    (fun s H => eq_ind JNull (fun j => match j with JNull => True | _ => False end) I _ H))).
    reflexivity.
  - apply (proj2 (non_string_description_breaks_synthesis Re.search
                    [ [ ("name", JStr "Hostname"); ("description", JStr "name the device");
                        ("command", JStr "hostname [name]") ] ]
                    [ ("name", JStr "Enable SSH"); ("description", JNull) ] []
                    "set the banner" "Enable SSH" JNull eq_refl eq_refl
                    (fun s H => eq_ind JNull (fun j => match j with JNull => True | _ => False end) I _ H))).
    + reflexivity.
    + intros p [<-|[]]. eexists. vm_compute. reflexivity.
Defined.

(** * Further properties of the feature lister *)

Section Lister.
Import PyStr StrFacts.

Lemma bind_Ok_r {X : Type} (m : result (list X)) :
  (do here <- Ok []; do more <- m; Ok (here ++ more)) = m.
Proof. rewrite bind_ret. destruct m; reflexivity. Qed.

(** Elements on which the body emits nothing can be left out of a loop. *)
Lemma for_each_filter {X Y : Type} (f : X -> result (list Y)) (keep : X -> bool)
    (xs : list X) :
  (forall x, In x xs -> keep x = false -> f x = Ok []) ->
  for_each f xs = for_each f (List.filter keep xs).
Proof.
  induction xs as [|x xs IH]; intros Hskip; [reflexivity|]. simpl.
  assert (IH' : for_each f xs = for_each f (List.filter keep xs))
    by (apply IH; intros y Hy; apply Hskip; right; exact Hy).
  destruct (keep x) eqn:Hk; simpl; rewrite IH'; [reflexivity|].
  rewrite (Hskip x (or_introl eq_refl) Hk). apply bind_Ok_r.
Qed.

Lemma skip_level_filter f level :
  f <> "" -> skip_level (Some f) level = negb (String.eqb (lower level) f).
Proof.
  intros Hf. unfold skip_level.
  destruct (String.eqb_spec f ""); [contradiction|reflexivity].
Qed.

(** X19.  A setup listing with a non-empty level filter lists no group:
    setup entries carry the empty level, which no filter equals.  The
    lister then never looks at a command, so it cannot raise either. *)
Theorem filtered_setup_listing_is_empty vendor_keys f subtree :
  f <> "" ->
  forall device_path,
    extract_features vendor_keys "setup" (Some f) subtree device_path = Ok [].
Proof.
  intros Hf.
  induction subtree as [j Hleaf|d IH] using json_dict_ind; intros device_path.
  - destruct j; try reflexivity. contradiction (Hleaf d). reflexivity.
  - simpl. destruct (PyDict.get "setup" d) as [v|].
    + simpl. destruct f; [contradiction|reflexivity].
    + apply for_each_nothing. intros [k v] Hin.
      destruct (in_list (lower k) vendor_keys); [reflexivity|].
      apply (proj1 (List.Forall_forall _ _) IH (k, v) Hin).
Qed.

(** X20.  Listing the security levels of a node with a level filter is
    listing, without filter, the levels whose lowercased name equals the
    filter: the other levels are passed over unread. *)
Theorem level_filter_selects_levels vendor_keys f d levels device_path :
  f <> "" ->
  PyDict.get "security" d = Some (JDict levels) ->
  extract_features vendor_keys "security" (Some f) (JDict d) device_path
  = extract_features vendor_keys "security" None
      (JDict [ ("security",
                JDict (List.filter (fun lc => String.eqb (lower (fst lc)) f) levels)) ])
      device_path.
Proof.
  intros Hf Hget. simpl. rewrite Hget. simpl.
  rewrite (for_each_filter (feature_group (Some f) device_path)
             (fun lc => String.eqb (lower (fst lc)) f)).
  - apply for_each_ext. intros [level cmds] Hin.
    apply filter_In in Hin as [_ Hkeep]. simpl in Hkeep.
    unfold feature_group. rewrite skip_level_filter, Hkeep by exact Hf. reflexivity.
  - intros [level cmds] _ Hkeep. simpl in Hkeep.
    unfold feature_group. rewrite skip_level_filter, Hkeep by exact Hf. reflexivity.
Qed.

(** X21.  Resolved vendors that are not keys of the knowledge tree are
    passed over silently: the listing is the listing of the resolved
    vendors the tree has, and it is the closing prompt alone when the tree
    has none of them. *)
Theorem unknown_vendors_are_not_listed dataset vendors vendors_found
    feature_type level_filter :
  dataset_vendors dataset = Ok vendors ->
  generate_feature_list dataset vendors_found feature_type level_filter
  = generate_feature_list dataset
      (List.filter (fun vendor => PyDict.mem vendor vendors) vendors_found)
      feature_type level_filter
  /\ ((forall vendor, In vendor vendors_found -> PyDict.get vendor vendors = None) ->
      generate_feature_list dataset vendors_found feature_type level_filter
      = Ok feature_trailer).
Proof.
  intros Hds. unfold generate_feature_list. split.
  - rewrite (for_each_filter _ (fun vendor => PyDict.mem vendor vendors)); [reflexivity|].
    intros vendor _ Hmem. rewrite Hds, bind_ret. unfold PyDict.mem in Hmem.
    destruct (PyDict.get vendor vendors); [discriminate|reflexivity].
  - intros Hnone. rewrite for_each_nothing; [reflexivity|].
    intros vendor Hin. rewrite Hds, bind_ret, (Hnone vendor Hin). reflexivity.
Qed.

End Lister.

Lemma filtered_setup_listing_is_empty_witness :
  extract_features ["cisco"; "juniper"] "setup" (Some "basic")
    (JDict [ ("Router", JDict [ ("setup", JList [Sample.hostname; JNull]) ]) ])
    "Cisco"
  = Ok [].
Proof.
  apply (filtered_setup_listing_is_empty ["cisco"; "juniper"] "basic").
  discriminate.
Defined.

Lemma level_filter_selects_levels_witness :
  extract_features ["cisco"] "security" (Some "basic")
    (JDict [ ("security",
              JDict [ ("Basic", JList [Sample.ssh]); ("advanced", JList [JNull]) ]) ])
    "Cisco/Router"
  = extract_features ["cisco"] "security" None
      (JDict [ ("security", JDict [ ("Basic", JList [Sample.ssh]) ]) ])
      "Cisco/Router".
Proof.
  apply (level_filter_selects_levels ["cisco"] "basic"
           [ ("security",
              JDict [ ("Basic", JList [Sample.ssh]); ("advanced", JList [JNull]) ]) ]
           [ ("Basic", JList [Sample.ssh]); ("advanced", JList [JNull]) ]
           "Cisco/Router").
  - discriminate.
  - reflexivity.
Defined.

Lemma unknown_vendors_are_not_listed_witness :
  generate_feature_list Sample.dataset ["Palo Alto"; "Fortinet"; "F5"] "security" None
  = Ok feature_trailer.
Proof.
  apply (proj2 (unknown_vendors_are_not_listed Sample.dataset
                  [ ("Cisco",
                     JDict [ ("Router",
                              JDict [ ("setup", JList [Sample.hostname]);
                                      ("security",
                                       JDict [ ("basic", JList [Sample.ssh]) ]) ]) ]);
                    ("Juniper", JDict []) ]
                  ["Palo Alto"; "Fortinet"; "F5"] "security" None eq_refl)).
  intros vendor [<-|[<-|[<-|[]]]]; reflexivity.
Defined.

(** * Normalization of the query *)

Section Normalization.
Import PyStr StrFacts.

#[local] Arguments Ascii.eqb : simpl never.





















Variable dataset : json.
Variable similarity_search : faiss -> string -> nat -> list string.
Variable get_preview : string -> string.
Variable re_search : string -> string -> result (option string).


End Normalization.
